(** * dicttoxml: a shallow embedding of [dicttoxml.py] and its properties

    The module converts a nested Python value (scalars, dicts, iterables)
    into an XML byte string.  The embedding follows the Python 3 reading of
    the source (where [unicode] is [str] and [long] is [int]) with
    insertion-ordered dicts.

    Conventions of the embedding:
    - text is a [string], one [ascii] per code point (the Latin-1 range);
    - a dict whose order matters is an association list; [dict_set] is
      Python's [d[k] = v];
    - Python exceptions are the [Raises] outcome; a computation that touches
      the module globals (the [ids] list, the default [attr] dicts, the random
      generator) is a function of the [World];
    - [xml.dom.minidom.parseString] is an external parser: it is a parameter
      [parseString_ok] of the development, telling whether a document parses;
    - logging ([LOG.info], [unicode_me]) has no effect on results and is left
      out. *)

From Stdlib Require Import List String Ascii Bool ZArith Lia DecimalString.
Import ListNotations.
Local Open Scope string_scope.

(** ** Text *)

(** The double quote character, as a one-character text. *)
Definition dquote : string := String (ascii_of_nat 34) EmptyString.

(** [str(n)] for an integer. *)
Definition str_of_Z (z : Z) : string := NilZero.string_of_int (Z.to_int z).

(** [s.replace(old, new)] for a one-character [old]. *)
Fixpoint replace (old : ascii) (new : string) (s : string) : string :=
  match s with
  | EmptyString => EmptyString
  | String c rest =>
      if Ascii.eqb c old then new ++ replace old new rest
      else String c (replace old new rest)
  end.

(** Characters for which [str.isdigit] holds in the Latin-1 range: the ASCII
    digits and the superscripts U+00B2, U+00B3, U+00B9. *)
Definition char_isdigit (c : ascii) : bool :=
  let n := nat_of_ascii c in
  ((48 <=? n) && (n <=? 57))%nat || (n =? 178)%nat || (n =? 179)%nat || (n =? 185)%nat.

Fixpoint all_chars (p : ascii -> bool) (s : string) : bool :=
  match s with
  | EmptyString => true
  | String c rest => p c && all_chars p rest
  end.

(** [key.isdigit()]: at least one character, and all of them digits. *)
Definition isdigit (s : string) : bool :=
  match s with
  | EmptyString => false
  | _ => all_chars char_isdigit s
  end.

(** [str.lower()] on the ASCII letters. *)
Definition char_lower (c : ascii) : ascii :=
  let n := nat_of_ascii c in
  if ((65 <=? n) && (n <=? 90))%nat then ascii_of_nat (n + 32) else c.

Fixpoint lower (s : string) : string :=
  match s with
  | EmptyString => EmptyString
  | String c rest => String (char_lower c) (lower rest)
  end.

(** ['sep'.join(parts)]. *)
Fixpoint join (sep : string) (parts : list string) : string :=
  match parts with
  | [] => ""
  | [p] => p
  | p :: rest => p ++ sep ++ join sep rest
  end.

(** [text.encode('utf-8')] for code points below 256. *)
Definition encode_char (c : ascii) : list Z :=
  let n := Z.of_nat (nat_of_ascii c) in
  if (n <? 128)%Z then [n]
  else [Z.lor 192 (Z.shiftr n 6); Z.lor 128 (Z.land n 63)].

Fixpoint encode_utf8 (s : string) : list Z :=
  match s with
  | EmptyString => []
  | String c rest => encode_char c ++ encode_utf8 rest
  end.

(** ** Dicts of attributes *)

Definition Attr := list (string * string).

(** [d[k] = v]: overwrite in place, or append a new entry. *)
Fixpoint dict_set_by {K V : Type} (eqb : K -> K -> bool) (k : K) (v : V)
    (d : list (K * V)) : list (K * V) :=
  match d with
  | [] => [(k, v)]
  | (k', v') :: rest =>
      if eqb k' k then (k, v) :: rest else (k', v') :: dict_set_by eqb k v rest
  end.

Definition dict_set {V : Type} : string -> V -> list (string * V) -> list (string * V) :=
  dict_set_by String.eqb.

(** ** Values *)

(** The runtime values the converter can be handed.  A float and the other
    numeric types carry their [str()] rendering; a date-like object carries
    the text its [isoformat()] returns; [VList] is any iterable that is not a
    dict nor a string, with its elements in iteration order; [VOther] is any
    remaining object, with its [str()] and the name of its type. *)
Inductive Value : Type :=
| VNone
| VBool (b : bool)
| VInt (z : Z)
| VFloat (text : string)
| VNumber (text tname : string)
| VStr (s : string)
| VDate (iso tname : string)
| VDict (d : Dict)
| VList (l : Seq)
| VOther (text tname : string)
with Dict : Type :=
| DNil
| DCons (key : string) (val : Value) (rest : Dict)
with Seq : Type :=
| SNil
| SCons (item : Value) (rest : Seq).

Scheme Value_mut := Induction for Value Sort Prop
  with Dict_mut := Induction for Dict Sort Prop
  with Seq_mut := Induction for Seq Sort Prop.
Combined Scheme Value_Dict_Seq_ind from Value_mut, Dict_mut, Seq_mut.

Fixpoint dict_of (l : list (string * Value)) : Dict :=
  match l with
  | [] => DNil
  | (k, v) :: rest => DCons k v (dict_of rest)
  end.

Fixpoint seq_of (l : list Value) : Seq :=
  match l with
  | [] => SNil
  | v :: rest => SCons v (seq_of rest)
  end.

Fixpoint items (d : Dict) : list (string * Value) :=
  match d with
  | DNil => []
  | DCons k v rest => (k, v) :: items rest
  end.

Fixpoint elements (l : Seq) : list Value :=
  match l with
  | SNil => []
  | SCons v rest => v :: elements rest
  end.

(** The classes the source tests against. *)
Inductive PyType : Type :=
| T_str | T_int | T_float | T_bool | T_Number | T_NoneType | T_dict
| T_Iterable | T_list | T_named (name : string).

(** [type(v)]. *)
Definition type_of (v : Value) : PyType :=
  match v with
  | VNone => T_NoneType
  | VBool _ => T_bool
  | VInt _ => T_int
  | VFloat _ => T_float
  | VNumber _ tname => T_named tname
  | VStr _ => T_str
  | VDate _ tname => T_named tname
  | VDict _ => T_dict
  | VList _ => T_list
  | VOther _ tname => T_named tname
  end.

(** [type(v).__name__]. *)
Definition type_name (v : Value) : string :=
  match type_of v with
  | T_str => "str" | T_int => "int" | T_float => "float" | T_bool => "bool"
  | T_Number => "Number" | T_NoneType => "NoneType" | T_dict => "dict"
  | T_Iterable => "Iterable" | T_list => "list" | T_named n => n
  end.

Definition PyType_eqb (a b : PyType) : bool :=
  match a, b with
  | T_str, T_str | T_int, T_int | T_float, T_float | T_bool, T_bool
  | T_Number, T_Number | T_NoneType, T_NoneType | T_dict, T_dict
  | T_Iterable, T_Iterable | T_list, T_list => true
  | T_named x, T_named y => String.eqb x y
  | _, _ => false
  end.

(** [isinstance(v, cls)]: [bool] is a subclass of [int]; every numeric value
    is a [numbers.Number]; strings, dicts and the other iterables are
    [collections.Iterable]. *)
Definition isinstance (v : Value) (cls : PyType) : bool :=
  match cls, v with
  | T_int, VBool _ => true
  | T_Number, (VBool _ | VInt _ | VFloat _ | VNumber _ _) => true
  | T_Iterable, (VStr _ | VDict _ | VList _) => true
  | _, _ => PyType_eqb (type_of v) cls
  end.

(** [hasattr(v, 'isoformat')]. *)
Definition has_isoformat (v : Value) : bool :=
  match v with VDate _ _ => true | _ => false end.

(** [v.isoformat()], where it exists. *)
Definition isoformat (v : Value) : Value :=
  match v with VDate iso _ => VStr iso | _ => v end.

(** [type(v) in (str, unicode)]. *)
Definition type_in_str_unicode (v : Value) : bool :=
  PyType_eqb (type_of v) T_str || PyType_eqb (type_of v) T_str.

(** ['{}'.format(v)] and [unicode(v)].  The engine formats scalars and, in the
    message of its error, objects of no supported kind; a container never
    reaches a format string, and stands here as a mark. *)
Definition format (v : Value) : string :=
  match v with
  | VNone => "None"
  | VBool true => "True"
  | VBool false => "False"
  | VInt z => str_of_Z z
  | VFloat text => text
  | VNumber text _ => text
  | VStr s => s
  | VDate iso _ => iso
  | VDict _ => "{...}"
  | VList _ => "[...]"
  | VOther text _ => text
  end.

(** ** Outcomes *)

Inductive PyExc : Type :=
| TypeError (msg : string)
| IndexError (msg : string).

(** What a call does: it returns, it raises, or (only the retry loop of
    [get_unique_id]) it is still looping when the retry budget is spent. *)
Inductive Outcome (A : Type) : Type :=
| Returns (a : A)
| Raises (e : PyExc)
| Spins.
Arguments Returns {A} a.
Arguments Raises {A} e.
Arguments Spins {A}.

(** ** Type classifier *)

(** The dict literal of [get_xml_type], built entry by entry in the order it
    is written ([unicode] is [str] and [long] is [int]). *)
Definition type_str_mapping : list (PyType * string) :=
  let add := dict_set_by PyType_eqb in
  add T_Iterable "list" (add T_dict "dict" (add T_NoneType "null"
  (add T_Number "number" (add T_bool "bool" (add T_float "float"
  (add T_int "int" (add T_int "int" (add T_str "str" (add T_str "str" []))))))))).

(** Iterating a dict yields its keys. *)
Definition dict_keys {K V : Type} (d : list (K * V)) : list K := map fst d.

(** The loop header [for val_type, type_str in type_str_mapping] unpacks each
    element the iteration yields into two targets.  The elements are the keys,
    class objects, and a class object is not iterable: the unpacking raises
    [TypeError]. *)
Definition unpack_pair (k : PyType) : Outcome (PyType * string) :=
  Raises (TypeError "cannot unpack non-iterable type object").

Fixpoint get_xml_type_loop (val : Value) (yielded : list PyType) : Outcome (option string) :=
  match yielded with
  | [] => Returns None
  | k :: rest =>
      match unpack_pair k with
      | Returns (val_type, type_str) =>
          if isinstance val val_type then Returns (Some type_str)
          else get_xml_type_loop val rest
      | Raises e => Raises e
      | Spins => Spins
      end
  end.

Definition get_xml_type (val : Value) : Outcome string :=
  match get_xml_type_loop val (dict_keys type_str_mapping) with
  | Returns (Some type_str) => Returns type_str
  | Returns None => Returns (type_name val)
  | Raises e => Raises e
  | Spins => Spins
  end.

(** ** Escaper *)

Definition xml_escape (s : Value) : Value :=
  if type_in_str_unicode s then
    match s with
    | VStr s =>
        let s := replace "&"%char "&amp;" s in
        let s := replace (ascii_of_nat 34) "&quot;" s in
        let s := replace "'"%char "&apos;" s in
        let s := replace "<"%char "&lt;" s in
        let s := replace ">"%char "&gt;" s in
        VStr s
    | _ => s
    end
  else s.

(** ** Attribute strings *)

Definition make_attrstring (attr : Attr) : string :=
  let attrstring := join " " (map (fun kv => fst kv ++ "=" ++ dquote ++ snd kv ++ dquote) attr) in
  (if String.eqb attrstring "" then "" else " ") ++ attrstring.

(** ** The module globals *)

(** The state a call can read or change: the global list [ids], the source of
    random integers (the numbers [randint] will draw, and how many were
    drawn), and the three dict objects created once as the default value of
    the [attr] parameter of [convert_kv], [convert_bool] and [convert_none]. *)
Record World : Type := mkWorld {
  ids : list string;
  randoms : nat -> Z;
  drawn : nat;
  convert_kv_attr : Attr;
  convert_bool_attr : Attr;
  convert_none_attr : Attr
}.

Definition set_ids (l : list string) (w : World) : World :=
  mkWorld l (randoms w) (drawn w) (convert_kv_attr w) (convert_bool_attr w) (convert_none_attr w).
Definition set_drawn (n : nat) (w : World) : World :=
  mkWorld (ids w) (randoms w) n (convert_kv_attr w) (convert_bool_attr w) (convert_none_attr w).
Definition set_convert_kv_attr (a : Attr) (w : World) : World :=
  mkWorld (ids w) (randoms w) (drawn w) a (convert_bool_attr w) (convert_none_attr w).
Definition set_convert_bool_attr (a : Attr) (w : World) : World :=
  mkWorld (ids w) (randoms w) (drawn w) (convert_kv_attr w) a (convert_none_attr w).
Definition set_convert_none_attr (a : Attr) (w : World) : World :=
  mkWorld (ids w) (randoms w) (drawn w) (convert_kv_attr w) (convert_bool_attr w) a.

(** The world when the module has just been imported. *)
Definition fresh_world (rnd : nat -> Z) : World := mkWorld [] rnd 0 [] [] [].

(** A call in a world: its outcome and the world it leaves.  A raise keeps the
    changes made before it. *)
Definition M (A : Type) : Type := World -> Outcome A * World.

Definition ret {A : Type} (a : A) : M A := fun w => (Returns a, w).
Definition raise {A : Type} (e : PyExc) : M A := fun w => (Raises e, w).

Definition bind {A B : Type} (c : M A) (k : A -> M B) : M B :=
  fun w =>
    match c w with
    | (Returns a, w') => k a w'
    | (Raises e, w') => (Raises e, w')
    | (Spins, w') => (Spins, w')
    end.

Notation "x <- c ;; k" := (bind c (fun x => k))
  (at level 61, c at next level, right associativity).

(** A call that is handed its own dict: the dict is dropped afterwards. *)
Definition with_attr {A : Type} (r : Outcome A * Attr) : M A :=
  fun w => (fst r, w).

(** A call that omits [attr]: it works on the default dict object of the
    function, and what it stores there stays. *)
Definition with_default {A : Type} (get : World -> Attr) (set : Attr -> World -> World)
    (f : Attr -> Outcome A * Attr) : M A :=
  fun w => let r := f (get w) in (fst r, set (snd r) w).

(** ** Identity allocator *)

(** [randint(start, end)]: the next number of the world, brought into the
    closed range. *)
Definition randint (start end_ : Z) : M Z :=
  fun w => (Returns (start + (randoms w (drawn w)) mod (end_ - start + 1))%Z,
            set_drawn (S (drawn w)) w).

Definition make_id (element : string) : M string :=
  n <- randint 100000 999999 ;;
  ret (element ++ "_" ++ str_of_Z n).

(** [x in l] for a list of texts. *)
Definition mem (x : string) (l : list string) : bool := existsb (String.eqb x) l.

(** The [while dup is True] loop; [retries] bounds the new candidates it may
    draw before the model gives up with [Spins]. *)
Fixpoint get_unique_id_loop (retries : nat) (element this_id : string) : M unit :=
  fun w =>
    if negb (mem this_id (ids w)) then
      (Returns tt, set_ids (ids w ++ [this_id])%list w)
    else
      match retries with
      | O => (Spins, w)
      | S retries' =>
          (this_id' <- make_id element ;;
           get_unique_id_loop retries' element this_id') w
      end.

(** [ids[-1]]. *)
Definition ids_last : M string :=
  fun w =>
    match rev (ids w) with
    | x :: _ => (Returns x, w)
    | [] => (Raises (IndexError "list index out of range"), w)
    end.

Section Engine.

(** Whether [parseString] accepts a document (it raises otherwise). *)
Variable parseString_ok : string -> bool.

(** How many retries of the allocator's loop the model follows. *)
Variable retry_budget : nat.

Definition get_unique_id (element : string) : M string :=
  this_id <- make_id element ;;
  _ <- get_unique_id_loop retry_budget element this_id ;;
  ids_last.

(** *** Name sanitizer *)

Definition test_xml (key : string) : string :=
  "<?xml version=" ++ dquote ++ "1.0" ++ dquote ++ " encoding=" ++ dquote
    ++ "UTF-8" ++ dquote ++ " ?><" ++ key ++ ">foo</" ++ key ++ ">".

Definition key_is_valid_xml (key : string) : bool :=
  parseString_ok (test_xml key).

Definition make_valid_xml_name (key : string) (attr : Attr) : string * Attr :=
  if key_is_valid_xml key then (key, attr)
  else if isdigit key then ("n" ++ key, attr)
  else if key_is_valid_xml (replace " " "_" key) then (replace " " "_" key, attr)
  else ("key", dict_set "name" key attr).

(** *** Element renderer *)

(** [if attr_type: attr['type'] = get_xml_type(val)]: the right-hand side is
    evaluated first, so a raise leaves the dict as it was. *)
Definition set_type (attr_type : bool) (val : Value) (attr : Attr) : Outcome unit * Attr :=
  if attr_type then
    match get_xml_type val with
    | Returns t => (Returns tt, dict_set "type" t attr)
    | Raises e => (Raises e, attr)
    | Spins => (Spins, attr)
    end
  else (Returns tt, attr).

(** The three leaf renderers take the dict [attr] and give, with their
    outcome, what the dict holds when they are done. *)
Definition convert_kv (key : string) (val : Value) (attr_type : bool) (attr : Attr)
    : Outcome string * Attr :=
  let '(key, attr) := make_valid_xml_name key attr in
  match set_type attr_type val attr with
  | (Returns _, attr) =>
      let attrstring := make_attrstring attr in
      (Returns ("<" ++ key ++ attrstring ++ ">" ++ format (xml_escape val)
                  ++ "</" ++ key ++ ">"), attr)
  | (Raises e, attr) => (Raises e, attr)
  | (Spins, attr) => (Spins, attr)
  end.

Definition convert_bool (key : string) (val : Value) (attr_type : bool) (attr : Attr)
    : Outcome string * Attr :=
  let '(key, attr) := make_valid_xml_name key attr in
  match set_type attr_type val attr with
  | (Returns _, attr) =>
      let attrstring := make_attrstring attr in
      (Returns ("<" ++ key ++ attrstring ++ ">" ++ lower (format val)
                  ++ "</" ++ key ++ ">"), attr)
  | (Raises e, attr) => (Raises e, attr)
  | (Spins, attr) => (Spins, attr)
  end.

Definition convert_none (key : string) (val : Value) (attr_type : bool) (attr : Attr)
    : Outcome string * Attr :=
  let '(key, attr) := make_valid_xml_name key attr in
  match set_type attr_type val attr with
  | (Returns _, attr) =>
      let attrstring := make_attrstring attr in
      (Returns ("<" ++ key ++ attrstring ++ "></" ++ key ++ ">"), attr)
  | (Raises e, attr) => (Raises e, attr)
  | (Spins, attr) => (Spins, attr)
  end.

(** *** Conversion engine *)

Definition unsupported (val : Value) : PyExc :=
  TypeError ("Unsupported data type: " ++ format val ++ " (" ++ type_name val ++ ")").

(** The dict [attr] a loop iteration starts with. *)
Definition dict_entry_attr (ids : bool) (parent : string) : M Attr :=
  if ids then (this_id <- get_unique_id parent ;; ret [("id", this_id)])
  else ret [].

Definition list_item_attr (ids : bool) (this_id : string) (i : nat) : Attr :=
  if ids then [("id", this_id ++ "_" ++ str_of_Z (Z.of_nat (i + 1)))] else [].

(** [if attr_type: attr['type'] = get_xml_type(val)] in the loop body of
    [convert_dict], giving the dict to build the opening tag from. *)
Definition container_attr (attr_type : bool) (val : Value) (attr : Attr) : M Attr :=
  _ <- with_attr (set_type attr_type val attr) ;;
  ret (snd (set_type attr_type val attr)).

(** The head of [convert_list]: one identifier per list when [ids] is set,
    then the loop over the enumerated items. *)
Definition convert_list_with {Items : Type} (loop : Items -> string -> nat -> M string)
    (items : Items) (ids : bool) (parent : string) : M string :=
  this_id <- (if ids then get_unique_id parent else ret "") ;;
  loop items this_id 0%nat.

(** The loop of [convert_list] when the iterable is a text: it yields the
    characters, each one a text of its own, which the first test of the loop
    body sends to [convert_kv]. *)
Fixpoint convert_chars (ids attr_type : bool) (s : string) (this_id : string) (i : nat)
    : M string :=
  match s with
  | EmptyString => ret ""
  | String c rest =>
      let attr := list_item_attr ids this_id i in
      line <- with_attr (convert_kv "item" (VStr (String c "")) attr_type attr) ;;
      out <- convert_chars ids attr_type rest this_id (S i) ;;
      ret (line ++ out)
  end.

Fixpoint convert_dict (obj : Dict) (ids : bool) (parent : string) (attr_type : bool)
    {struct obj} : M string :=
  match obj with
  | DNil => ret ""
  | DCons key val rest =>
      attr <- dict_entry_attr ids parent ;;
      let '(key, attr) := make_valid_xml_name key attr in
      line <-
        (if isinstance val T_Number || type_in_str_unicode val then
           with_attr (convert_kv key val attr_type attr)
         else if has_isoformat val then
           with_attr (convert_kv key (isoformat val) attr_type attr)
         else if PyType_eqb (type_of val) T_bool then
           with_attr (convert_bool key val attr_type attr)
         else
           match val with
           | VDict d =>
               attr <- container_attr attr_type val attr ;;
               let attrstring := make_attrstring attr in
               inner <- convert_dict d ids key attr_type ;;
               ret ("<" ++ key ++ attrstring ++ ">" ++ inner ++ "</" ++ key ++ ">")
           | VList l =>
               attr <- container_attr attr_type val attr ;;
               let attrstring := make_attrstring attr in
               inner <- convert_list_with
                          (fun l this_id i => convert_list_loop l this_id i ids key attr_type)
                          l ids key ;;
               ret ("<" ++ key ++ attrstring ++ ">" ++ inner ++ "</" ++ key ++ ">")
           | VStr s =>
               attr <- container_attr attr_type val attr ;;
               let attrstring := make_attrstring attr in
               inner <- convert_list_with (convert_chars ids attr_type) s ids key ;;
               ret ("<" ++ key ++ attrstring ++ ">" ++ inner ++ "</" ++ key ++ ">")
           | VNone => with_attr (convert_none key val attr_type attr)
           | _ => raise (unsupported val)
           end) ;;
      out <- convert_dict rest ids parent attr_type ;;
      ret (line ++ out)
  end

with convert_list_loop (items : Seq) (this_id : string) (i : nat)
    (ids : bool) (parent : string) (attr_type : bool) {struct items} : M string :=
  match items with
  | SNil => ret ""
  | SCons item rest =>
      let attr := list_item_attr ids this_id i in
      line <-
        (if isinstance item T_Number || type_in_str_unicode item then
           with_attr (convert_kv "item" item attr_type attr)
         else if has_isoformat item then
           with_attr (convert_kv "item" (isoformat item) attr_type attr)
         else if PyType_eqb (type_of item) T_bool then
           with_attr (convert_bool "item" item attr_type attr)
         else
           match item with
           | VDict d =>
               if negb attr_type then
                 convert_dict d ids parent attr_type
               else
                 inner <- convert_dict d ids parent attr_type ;;
                 ret ("<item type=" ++ dquote ++ "dict" ++ dquote ++ ">" ++ inner ++ "</item>")
           | VList l =>
               if negb attr_type then
                 convert_list_with
                   (fun l this_id i => convert_list_loop l this_id i ids "item" attr_type)
                   l ids "item"
               else
                 let attrstring := make_attrstring attr in
                 inner <- convert_list_with
                            (fun l this_id i => convert_list_loop l this_id i ids "item" attr_type)
                            l ids "item" ;;
                 ret ("<item type=" ++ dquote ++ "list" ++ dquote ++ attrstring ++ ">"
                        ++ inner ++ "</item>")
           | VStr s =>
               if negb attr_type then
                 convert_list_with (convert_chars ids attr_type) s ids "item"
               else
                 let attrstring := make_attrstring attr in
                 inner <- convert_list_with (convert_chars ids attr_type) s ids "item" ;;
                 ret ("<item type=" ++ dquote ++ "list" ++ dquote ++ attrstring ++ ">"
                        ++ inner ++ "</item>")
           | VNone => with_attr (convert_none "item" VNone attr_type attr)
           | _ => raise (unsupported item)
           end) ;;
      out <- convert_list_loop rest this_id (S i) ids parent attr_type ;;
      ret (line ++ out)
  end.

Definition convert_list (items : Seq) (ids : bool) (parent : string) (attr_type : bool)
    : M string :=
  convert_list_with
    (fun l this_id i => convert_list_loop l this_id i ids parent attr_type)
    items ids parent.

Definition convert (obj : Value) (ids attr_type : bool) (parent : string) : M string :=
  if isinstance obj T_Number || type_in_str_unicode obj then
    with_default convert_kv_attr set_convert_kv_attr (convert_kv "item" obj attr_type)
  else if has_isoformat obj then
    with_default convert_kv_attr set_convert_kv_attr
      (convert_kv "item" (isoformat obj) attr_type)
  else if PyType_eqb (type_of obj) T_bool then
    with_default convert_bool_attr set_convert_bool_attr (convert_bool "item" obj attr_type)
  else
    match obj with
    | VNone =>
        with_default convert_none_attr set_convert_none_attr
          (convert_none "item" (VStr "") attr_type)
    | VDict d => convert_dict d ids parent attr_type
    | VList l => convert_list l ids parent attr_type
    | VStr s => convert_list_with (convert_chars ids attr_type) s ids parent
    | _ => raise (unsupported obj)
    end.

(** *** Document assembler *)

Definition xml_declaration : string :=
  "<?xml version=" ++ dquote ++ "1.0" ++ dquote ++ " encoding=" ++ dquote
    ++ "UTF-8" ++ dquote ++ " ?>".

Definition dicttoxml (obj : Value) (root : bool) (custom_root : string)
    (ids attr_type : bool) : M (list Z) :=
  output <-
    (if root then
       body <- convert obj ids attr_type custom_root ;;
       ret (xml_declaration ++ "<" ++ custom_root ++ ">" ++ body ++ "</" ++ custom_root ++ ">")
     else
       convert obj ids attr_type "") ;;
  ret (encode_utf8 output).

End Engine.

(** ** A parser to run the engine with

    [name_parser] accepts the probe document of [key_is_valid_xml] exactly when
    its tag is an XML name written in ASCII.  It stands for the external parser
    wherever the development is run on concrete inputs. *)

Definition name_start_char (c : ascii) : bool :=
  let n := nat_of_ascii c in
  ((65 <=? n) && (n <=? 90))%nat || ((97 <=? n) && (n <=? 122))%nat
  || (n =? 95)%nat || (n =? 58)%nat.

Definition name_char (c : ascii) : bool :=
  let n := nat_of_ascii c in
  name_start_char c || ((48 <=? n) && (n <=? 57))%nat || (n =? 45)%nat || (n =? 46)%nat.

Definition is_xml_name (s : string) : bool :=
  match s with
  | EmptyString => false
  | String c rest => name_start_char c && all_chars name_char rest
  end.

Fixpoint strip_prefix (p s : string) : option string :=
  match p, s with
  | EmptyString, _ => Some s
  | String a p', String b s' => if Ascii.eqb a b then strip_prefix p' s' else None
  | String _ _, EmptyString => None
  end.

Fixpoint up_to (stop : ascii) (s : string) : string :=
  match s with
  | EmptyString => EmptyString
  | String c rest => if Ascii.eqb c stop then EmptyString else String c (up_to stop rest)
  end.

Definition name_parser (doc : string) : bool :=
  match strip_prefix (xml_declaration ++ "<") doc with
  | Some rest =>
      let tag := up_to ">" rest in
      is_xml_name tag && String.eqb doc (test_xml tag)
  | None => false
  end.

(** ** Definitions used to state the properties *)

(** The mapping [{"a": 1, "b": [1, 2]}], keys in that order. *)
Definition example_mapping : Value :=
  VDict (dict_of [("a", VInt 1); ("b", VList (seq_of [VInt 1; VInt 2]))]).

(** What the five substitutions of the escaper do to one character. *)
Definition entity (c : ascii) : string :=
  if Ascii.eqb c "&" then "&amp;"
  else if Ascii.eqb c (ascii_of_nat 34) then "&quot;"
  else if Ascii.eqb c "'" then "&apos;"
  else if Ascii.eqb c "<" then "&lt;"
  else if Ascii.eqb c ">" then "&gt;"
  else String c EmptyString.

Fixpoint escape_chars (s : string) : string :=
  match s with
  | EmptyString => EmptyString
  | String c rest => entity c ++ escape_chars rest
  end.

(** The five replacements, in the order of the source. *)
Definition five_replacements (s : string) : string :=
  replace ">" "&gt;" (replace "<" "&lt;" (replace "'" "&apos;"
    (replace (ascii_of_nat 34) "&quot;" (replace "&" "&amp;" s)))).

(** The items of a text iterated as a sequence: its characters. *)
Fixpoint chars (s : string) : Seq :=
  match s with
  | EmptyString => SNil
  | String c rest => SCons (VStr (String c EmptyString)) (chars rest)
  end.

Fixpoint seq_app (a b : Seq) : Seq :=
  match a with
  | SNil => b
  | SCons v rest => SCons v (seq_app rest b)
  end.

Fixpoint seq_length (a : Seq) : nat :=
  match a with
  | SNil => O
  | SCons _ rest => S (seq_length rest)
  end.

(** The worlds a process can be in: the one after import, and the one any
    call of [dicttoxml] leaves. *)
Inductive reachable (parseString_ok : string -> bool) (retry_budget : nat) : World -> Prop :=
| reachable_fresh : forall rnd, reachable parseString_ok retry_budget (fresh_world rnd)
| reachable_call : forall w obj root custom_root ids attr_type,
    reachable parseString_ok retry_budget w ->
    reachable parseString_ok retry_budget
      (snd (dicttoxml parseString_ok retry_budget obj root custom_root ids attr_type w)).

(** A call that neither reads nor changes the world. *)
Definition pure_call {A : Type} (c : M A) : Prop :=
  exists r : Outcome A, forall w : World, c w = (r, w).

(** From [w] to [w'] the list [ids] has only been extended, and by
    identifiers that keep it free of duplicates. *)
Definition ids_grow (w w' : World) : Prop :=
  exists issued : list string,
    ids w' = (ids w ++ issued)%list
    /\ (NoDup (ids w) -> NoDup (ids w ++ issued)%list).

(** From [w] to [w'] the three default dicts are the same. *)
Definition same_defaults (w w' : World) : Prop :=
  convert_kv_attr w' = convert_kv_attr w
  /\ convert_bool_attr w' = convert_bool_attr w
  /\ convert_none_attr w' = convert_none_attr w.

(** What a call of the engine below [convert] may do to the world. *)
Definition engine_step (w w' : World) : Prop :=
  ids_grow w w' /\ same_defaults w w'.

Definition engine_call {A : Type} (c : M A) : Prop :=
  forall w : World, engine_step w (snd (c w)).

(** What a default dict can hold: nothing, or, when the parser rejects the
    tag [item], the name that the sanitizer stored. *)
Definition default_ok (parseString_ok : string -> bool) (a : Attr) : Prop :=
  a = [] \/ (key_is_valid_xml parseString_ok "item" = false /\ a = [("name", "item")]).

Definition defaults_ok (parseString_ok : string -> bool) (w : World) : Prop :=
  default_ok parseString_ok (convert_kv_attr w)
  /\ default_ok parseString_ok (convert_none_attr w).

(** Whether a text holds a character. *)
Fixpoint contains (c : ascii) (s : string) : bool :=
  match s with
  | EmptyString => false
  | String x rest => Ascii.eqb x c || contains c rest
  end.

(** The five characters the escaper rewrites. *)
Definition is_special (c : ascii) : bool :=
  Ascii.eqb c "&" || Ascii.eqb c (ascii_of_nat 34) || Ascii.eqb c "'"
  || Ascii.eqb c "<" || Ascii.eqb c ">".

(** The characters of markup: the two angle brackets and the two quotes. *)
Definition is_markup (c : ascii) : bool :=
  Ascii.eqb c (ascii_of_nat 34) || Ascii.eqb c "'" || Ascii.eqb c "<" || Ascii.eqb c ">".

(** The candidate that the draw number [j] from now gives [make_id]. *)
Definition candidate (element : string) (w : World) (j : nat) : string :=
  element ++ "_"
    ++ str_of_Z (100000 + randoms w (drawn w + j) mod (999999 - 100000 + 1)).

Fixpoint dict_app (a b : Dict) : Dict :=
  match a with
  | DNil => b
  | DCons key val rest => DCons key val (dict_app rest b)
  end.

(** The first object of no supported kind that the engine meets in a value,
    going through dict entries and list items in order. *)
Fixpoint first_unsupported (v : Value) : option Value :=
  match v with
  | VOther _ _ => Some v
  | VDict d => first_unsupported_dict d
  | VList l => first_unsupported_seq l
  | _ => None
  end
with first_unsupported_dict (d : Dict) : option Value :=
  match d with
  | DNil => None
  | DCons _ val rest =>
      match first_unsupported val with
      | Some x => Some x
      | None => first_unsupported_dict rest
      end
  end
with first_unsupported_seq (l : Seq) : option Value :=
  match l with
  | SNil => None
  | SCons item rest =>
      match first_unsupported item with
      | Some x => Some x
      | None => first_unsupported_seq rest
      end
  end.

(** The values with no nesting that the engine renders as one element:
    numbers, booleans, texts, date-like objects and [None]. *)
Definition is_leaf (v : Value) : bool :=
  match v with
  | VDict _ | VList _ | VOther _ _ => false
  | _ => true
  end.

(** The identifiers the loop of the allocator tests, in order: the one it was
    entered with, then the candidates drawn from the world. *)
Definition tried (element this_id : string) (w : World) (j : nat) : string :=
  match j with
  | O => this_id
  | S j' => candidate element w j'
  end.

Fixpoint all_leaves (l : Seq) : bool :=
  match l with
  | SNil => true
  | SCons item rest => is_leaf item && all_leaves rest
  end.

(** The element that [convert_kv] writes for a text without type attributes:
    the tag and the attributes are those the sanitizer gives. *)
Definition leaf_element (parseString_ok : string -> bool) (key : string) (attr : Attr)
    (text : string) : string :=
  "<" ++ fst (make_valid_xml_name parseString_ok key attr)
      ++ make_attrstring (snd (make_valid_xml_name parseString_ok key attr))
      ++ ">" ++ text
      ++ "</" ++ fst (make_valid_xml_name parseString_ok key attr) ++ ">".

(** An instance of a proper subclass of [str] holding the text [s], as the
    engine sees it.  The tests of a dispatch are, in order,
    [isinstance(v, numbers.Number)], [type(v) in (str, unicode)],
    [hasattr(v, 'isoformat')], [type(v) == bool], [v is None],
    [isinstance(v, dict)] and [isinstance(v, collections.Iterable)]: for such
    an instance only the last one holds, the test on [type(v)] being one of
    identity of classes, and iterating it yields its characters, each a [str].
    It is therefore the iterable of its characters. *)
Definition str_subclass_instance (s : string) : Value := VList (chars s).

(** ** Text lemmas *)

Lemma append_nil_r (s : string) : s ++ "" = s.
Proof. induction s as [|c s IH]; simpl; [reflexivity | now rewrite IH]. Qed.

Lemma append_assoc (a b c : string) : (a ++ b) ++ c = a ++ (b ++ c).
Proof. induction a as [|x a IH]; simpl; [reflexivity | now rewrite IH]. Qed.

Lemma replace_app (old : ascii) (new a b : string) :
  replace old new (a ++ b) = replace old new a ++ replace old new b.
Proof.
  induction a as [|c a IH]; simpl; [reflexivity|].
  destruct (Ascii.eqb c old); simpl; rewrite IH; [now rewrite append_assoc | reflexivity].
Qed.

Lemma replace_other (old c : ascii) (new : string) :
  Ascii.eqb c old = false -> replace old new (String c "") = String c "".
Proof. intros H; simpl; now rewrite H. Qed.

Lemma five_replacements_app (a b : string) :
  five_replacements (a ++ b) = five_replacements a ++ five_replacements b.
Proof. unfold five_replacements; now rewrite !replace_app. Qed.

Lemma five_replacements_char (c : ascii) :
  five_replacements (String c "") = entity c.
Proof.
  unfold entity.
  destruct (Ascii.eqb_spec c "&") as [->|H1]; [reflexivity|].
  destruct (Ascii.eqb_spec c (ascii_of_nat 34)) as [->|H2]; [reflexivity|].
  destruct (Ascii.eqb_spec c "'") as [->|H3]; [reflexivity|].
  destruct (Ascii.eqb_spec c "<") as [->|H4]; [reflexivity|].
  destruct (Ascii.eqb_spec c ">") as [->|H5]; [reflexivity|].
  apply Ascii.eqb_neq in H1, H2, H3, H4, H5.
  unfold five_replacements.
  now rewrite !replace_other.
Qed.

Lemma five_replacements_escape_chars (s : string) :
  five_replacements s = escape_chars s.
Proof.
  induction s as [|c s IH]; [reflexivity|].
  change (String c s) with (String c "" ++ s).
  rewrite five_replacements_app, five_replacements_char, IH. reflexivity.
Qed.

Lemma format_xml_escape_text (s : string) :
  format (xml_escape (VStr s)) = escape_chars s.
Proof.
  change (format (xml_escape (VStr s))) with (five_replacements s).
  apply five_replacements_escape_chars.
Qed.

(** ** Type classifier *)

(** C1 (the code departs from the claim).  The claim: for every value of a
    recognised kind [get_xml_type] returns one of the eight tags.  The code:
    the loop iterates the dict itself, not its items, so the first unpacking
    raises; [get_xml_type] raises [TypeError] on every value. *)
Theorem get_xml_type_always_raises :
  forall val : Value,
    get_xml_type val = Raises (TypeError "cannot unpack non-iterable type object").
Proof. intros val. reflexivity. Qed.

(** ** Escaper *)

(** C9.  [xml_escape] rewrites a text by the five replacements in the order
    [&], double quote, ['], [<], [>], which comes to replacing every character
    by its entity; numbers and booleans go through unchanged; and
    [xml_escape("<a&b>")] is ["&lt;a&amp;b&gt;"]. *)
Theorem xml_escape_spec :
  (forall s : string,
      xml_escape (VStr s)
      = VStr (replace ">" "&gt;" (replace "<" "&lt;" (replace "'" "&apos;"
               (replace (ascii_of_nat 34) "&quot;" (replace "&" "&amp;" s)))))
      /\ xml_escape (VStr s) = VStr (escape_chars s))
  /\ (forall z, xml_escape (VInt z) = VInt z)
  /\ (forall t, xml_escape (VFloat t) = VFloat t)
  /\ (forall t n, xml_escape (VNumber t n) = VNumber t n)
  /\ (forall b, xml_escape (VBool b) = VBool b)
  /\ xml_escape (VStr "<a&b>") = VStr "&lt;a&amp;b&gt;".
Proof.
  repeat split; try reflexivity.
  change (xml_escape (VStr s)) with (VStr (five_replacements s)).
  now rewrite five_replacements_escape_chars.
Qed.

(** ** Name sanitizer *)

Section Sanitizer.

Variable parseString_ok : string -> bool.

Lemma make_valid_xml_name_valid (key : string) (attr : Attr) :
  key_is_valid_xml parseString_ok key = true ->
  make_valid_xml_name parseString_ok key attr = (key, attr).
Proof. intros H. unfold make_valid_xml_name. now rewrite H. Qed.

Lemma make_valid_xml_name_fixed (key : string) (attr : Attr) :
  key_is_valid_xml parseString_ok key = false ->
  isdigit key = false ->
  replace " " "_" key = key ->
  make_valid_xml_name parseString_ok key attr = ("key", dict_set "name" key attr).
Proof.
  intros H1 H2 H3. unfold make_valid_xml_name.
  now rewrite H3, H1, H2.
Qed.

(** C6.  [make_valid_xml_name] is total (a parse failure is the [false] of
    [key_is_valid_xml], never an error) and follows the four cases in order:
    a valid key is returned unchanged; else a key of digits gets the prefix
    [n]; else the key with underscores for spaces, when that is valid; else
    the key goes into [attr["name"]] and the name is ["key"].  The key
    ["123"], which the parser rejects as a tag, becomes ["n123"]. *)
Theorem make_valid_xml_name_cases :
  forall (key : string) (attr : Attr),
    (key_is_valid_xml parseString_ok key = true ->
       make_valid_xml_name parseString_ok key attr = (key, attr))
    /\ (key_is_valid_xml parseString_ok key = false -> isdigit key = true ->
       make_valid_xml_name parseString_ok key attr = ("n" ++ key, attr))
    /\ (key_is_valid_xml parseString_ok key = false -> isdigit key = false ->
        key_is_valid_xml parseString_ok (replace " " "_" key) = true ->
       make_valid_xml_name parseString_ok key attr = (replace " " "_" key, attr))
    /\ (key_is_valid_xml parseString_ok key = false -> isdigit key = false ->
        key_is_valid_xml parseString_ok (replace " " "_" key) = false ->
       make_valid_xml_name parseString_ok key attr
       = ("key", dict_set "name" key attr))
    /\ (key_is_valid_xml parseString_ok "123" = false ->
       make_valid_xml_name parseString_ok "123" attr = ("n123", attr)).
Proof.
  intros key attr. unfold make_valid_xml_name.
  repeat split.
  - intros ->. reflexivity.
  - intros -> ->. reflexivity.
  - intros -> -> ->. reflexivity.
  - intros -> -> ->. reflexivity.
  - intros ->. reflexivity.
Qed.

End Sanitizer.

(** The witness of C6: the parser of names rejects the tag [123]. *)
Lemma make_valid_xml_name_cases_witness :
  key_is_valid_xml name_parser "123" = false
  /\ make_valid_xml_name name_parser "123" [] = ("n123", []).
Proof.
  split; [reflexivity|].
  apply (proj2 (proj2 (proj2 (proj2 (make_valid_xml_name_cases name_parser "123" []))))).
  reflexivity.
Defined.

(** ** Calls in a world *)

Lemma bind_ret_l {A B : Type} (a : A) (k : A -> M B) (w : World) :
  bind (ret a) k w = k a w.
Proof. reflexivity. Qed.

Lemma bind_ret_r {A : Type} (c : M A) (w : World) : bind c ret w = c w.
Proof. unfold bind, ret. destruct (c w) as [[a|e|] w']; reflexivity. Qed.

Lemma bind_assoc {A B C : Type} (c : M A) (k : A -> M B) (k' : B -> M C) (w : World) :
  bind (bind c k) k' w = bind c (fun a => bind (k a) k') w.
Proof. unfold bind. destruct (c w) as [[a|e|] w']; reflexivity. Qed.

Lemma bind_ext {A B : Type} (c : M A) (k k' : A -> M B) (w : World) :
  (forall a w', k a w' = k' a w') -> bind c k w = bind c k' w.
Proof. intros H. unfold bind. destruct (c w) as [[a|e|] w']; auto. Qed.

Lemma bind_cong {A B : Type} (c c' : M A) (k : A -> M B) (w : World) :
  c w = c' w -> bind c k w = bind c' k w.
Proof. intros H. unfold bind. now rewrite H. Qed.

Lemma bind_returns {A B : Type} (c : M A) (k : A -> M B) (w w' : World) (a : A) :
  c w = (Returns a, w') -> bind c k w = k a w'.
Proof. intros H. unfold bind. now rewrite H. Qed.

Lemma bind_raises {A B : Type} (c : M A) (k : A -> M B) (w w' : World) (e : PyExc) :
  c w = (Raises e, w') -> bind c k w = (Raises e, w').
Proof. intros H. unfold bind. now rewrite H. Qed.

(** ** Element renderer *)

Section Renderer.

Variable parseString_ok : string -> bool.

Lemma set_type_off (val : Value) (attr : Attr) :
  set_type false val attr = (Returns tt, attr).
Proof. reflexivity. Qed.

Lemma set_type_on (val : Value) (attr : Attr) :
  set_type true val attr
  = (Raises (TypeError "cannot unpack non-iterable type object"), attr).
Proof. reflexivity. Qed.

(** Without type attributes [convert_kv] returns one element, named by the
    sanitizer. *)
Lemma convert_kv_plain (key : string) (val : Value) (attr : Attr) :
  convert_kv parseString_ok key val false attr
  = (Returns ("<" ++ fst (make_valid_xml_name parseString_ok key attr)
                ++ make_attrstring (snd (make_valid_xml_name parseString_ok key attr))
                ++ ">" ++ format (xml_escape val)
                ++ "</" ++ fst (make_valid_xml_name parseString_ok key attr) ++ ">"),
     snd (make_valid_xml_name parseString_ok key attr)).
Proof.
  unfold convert_kv.
  destruct (make_valid_xml_name parseString_ok key attr) as [k a]. reflexivity.
Qed.

Lemma convert_none_plain (key : string) (val : Value) (attr : Attr) :
  convert_none parseString_ok key val false attr
  = (Returns ("<" ++ fst (make_valid_xml_name parseString_ok key attr)
                ++ make_attrstring (snd (make_valid_xml_name parseString_ok key attr))
                ++ "></" ++ fst (make_valid_xml_name parseString_ok key attr) ++ ">"),
     snd (make_valid_xml_name parseString_ok key attr)).
Proof.
  unfold convert_none.
  destruct (make_valid_xml_name parseString_ok key attr) as [k a]. reflexivity.
Qed.

(** With type attributes the three leaf renderers raise: the classifier
    does. *)
Lemma convert_kv_typed (key : string) (val : Value) (attr : Attr) :
  convert_kv parseString_ok key val true attr
  = (Raises (TypeError "cannot unpack non-iterable type object"),
     snd (make_valid_xml_name parseString_ok key attr)).
Proof.
  unfold convert_kv.
  destruct (make_valid_xml_name parseString_ok key attr) as [k a]. reflexivity.
Qed.

Lemma convert_bool_typed (key : string) (val : Value) (attr : Attr) :
  convert_bool parseString_ok key val true attr
  = (Raises (TypeError "cannot unpack non-iterable type object"),
     snd (make_valid_xml_name parseString_ok key attr)).
Proof.
  unfold convert_bool.
  destruct (make_valid_xml_name parseString_ok key attr) as [k a]. reflexivity.
Qed.

Lemma convert_none_typed (key : string) (val : Value) (attr : Attr) :
  convert_none parseString_ok key val true attr
  = (Raises (TypeError "cannot unpack non-iterable type object"),
     snd (make_valid_xml_name parseString_ok key attr)).
Proof.
  unfold convert_none.
  destruct (make_valid_xml_name parseString_ok key attr) as [k a]. reflexivity.
Qed.

End Renderer.

(** ** Conversion engine: the dispatch *)

Section Dispatch.

Variable parseString_ok : string -> bool.
Variable retry_budget : nat.

(** C2 (the code departs from the claim).  The claim: a dict entry whose
    value is [True] is rendered with the lowercase text [true], with
    [type="bool"] when type attributes are on.  The code: [bool] is a
    [numbers.Number], and the test for numbers comes first, so the entry goes
    to [convert_kv], which writes [str(True)]; with type attributes on, the
    classifier raises. *)
Theorem convert_dict_true_entry :
  forall (key parent : string) (w : World),
    key_is_valid_xml parseString_ok key = true ->
    convert_dict parseString_ok retry_budget (DCons key (VBool true) DNil)
      false parent false w
    = (Returns ("<" ++ key ++ ">True</" ++ key ++ ">"), w)
    /\ convert_dict parseString_ok retry_budget (DCons key (VBool true) DNil)
         false parent true w
       = (Raises (TypeError "cannot unpack non-iterable type object"), w).
Proof.
  intros key parent w Hk. split.
  - cbn -[make_valid_xml_name convert_kv append].
    rewrite (make_valid_xml_name_valid _ _ _ Hk).
    unfold bind, with_attr.
    rewrite convert_kv_plain, (make_valid_xml_name_valid _ _ _ Hk).
    cbn. now rewrite !append_nil_r.
  - cbn -[make_valid_xml_name convert_kv append].
    rewrite (make_valid_xml_name_valid _ _ _ Hk).
    unfold bind, with_attr. now rewrite convert_kv_typed.
Qed.

(** C7 (the code departs from the claim).  The claim: the engine fails only
    with the error for an unsupported value, and exactly on such values.  The
    code: with type attributes on, the integer [1], a supported value, makes
    [convert] raise the [TypeError] of the classifier, which is not the error
    for unsupported values. *)
Theorem convert_supported_value_raises :
  forall (ids : bool) (parent : string) (w : World),
    fst (convert parseString_ok retry_budget (VInt 1) ids true parent w)
    = Raises (TypeError "cannot unpack non-iterable type object")
    /\ fst (convert parseString_ok retry_budget (VInt 1) ids true parent w)
       <> Raises (unsupported (VInt 1)).
Proof.
  intros ids parent w.
  assert (H : fst (convert parseString_ok retry_budget (VInt 1) ids true parent w)
              = Raises (TypeError "cannot unpack non-iterable type object")).
  { unfold convert, with_default. cbn -[convert_kv]. now rewrite convert_kv_typed. }
  split; [exact H|]. rewrite H. discriminate.
Qed.

(** C10 (amended).  A value whose class is [str] itself is taken by the first
    test of each dispatch, before the test for iterables: at top level, as the
    value of a dict entry and as an item of a list, the engine hands the whole
    text to [convert_kv] and never runs the loop over its characters; and
    without type attributes the text is rendered there as one element holding
    its escaped form, followed by what the rest of the dict or list gives. *)
Theorem exact_str_is_one_leaf :
  forall s : string,
    (forall ids attr_type parent w,
        convert parseString_ok retry_budget (VStr s) ids attr_type parent w
        = with_default convert_kv_attr set_convert_kv_attr
            (convert_kv parseString_ok "item" (VStr s) attr_type) w)
    /\ (forall key rest ids attr_type parent w,
        convert_dict parseString_ok retry_budget (DCons key (VStr s) rest)
          ids parent attr_type w
        = (attr <- dict_entry_attr retry_budget ids parent ;;
           line <- with_attr
                     (convert_kv parseString_ok
                        (fst (make_valid_xml_name parseString_ok key attr)) (VStr s)
                        attr_type (snd (make_valid_xml_name parseString_ok key attr))) ;;
           out <- convert_dict parseString_ok retry_budget rest ids parent attr_type ;;
           ret (line ++ out)) w)
    /\ (forall rest this_id i ids attr_type parent w,
        convert_list_loop parseString_ok retry_budget (SCons (VStr s) rest)
          this_id i ids parent attr_type w
        = (line <- with_attr
                     (convert_kv parseString_ok "item" (VStr s) attr_type
                        (list_item_attr ids this_id i)) ;;
           out <- convert_list_loop parseString_ok retry_budget rest
                    this_id (S i) ids parent attr_type ;;
           ret (line ++ out)) w)
    /\ (forall ids parent w,
        fst (convert parseString_ok retry_budget (VStr s) ids false parent w)
        = Returns (leaf_element parseString_ok "item" (convert_kv_attr w) (escape_chars s)))
    /\ (forall key rest ids parent w attr w1 out w2,
        dict_entry_attr retry_budget ids parent w = (Returns attr, w1) ->
        convert_dict parseString_ok retry_budget rest ids parent false w1
        = (Returns out, w2) ->
        convert_dict parseString_ok retry_budget (DCons key (VStr s) rest)
          ids parent false w
        = (Returns
             (leaf_element parseString_ok
                (fst (make_valid_xml_name parseString_ok key attr))
                (snd (make_valid_xml_name parseString_ok key attr)) (escape_chars s)
              ++ out), w2))
    /\ (forall rest this_id i ids parent w out w1,
        convert_list_loop parseString_ok retry_budget rest this_id (S i)
          ids parent false w
        = (Returns out, w1) ->
        convert_list_loop parseString_ok retry_budget (SCons (VStr s) rest)
          this_id i ids parent false w
        = (Returns
             (leaf_element parseString_ok "item" (list_item_attr ids this_id i)
                (escape_chars s) ++ out), w1)).
Proof.
  intros s.
  assert (Hdict : forall key rest ids attr_type parent w,
             convert_dict parseString_ok retry_budget (DCons key (VStr s) rest)
               ids parent attr_type w
             = (attr <- dict_entry_attr retry_budget ids parent ;;
                line <- with_attr
                          (convert_kv parseString_ok
                             (fst (make_valid_xml_name parseString_ok key attr)) (VStr s)
                             attr_type (snd (make_valid_xml_name parseString_ok key attr))) ;;
                out <- convert_dict parseString_ok retry_budget rest ids parent attr_type ;;
                ret (line ++ out)) w).
  { intros key rest ids attr_type parent w.
    cbn -[make_valid_xml_name convert_kv append dict_entry_attr].
    apply bind_ext. intros attr w'.
    destruct (make_valid_xml_name parseString_ok key attr) as [k a]. reflexivity. }
  assert (Hleaf : forall key attr (w : World),
             with_attr (convert_kv parseString_ok key (VStr s) false attr) w
             = (Returns (leaf_element parseString_ok key attr (escape_chars s)), w)).
  { intros key attr w. unfold with_attr. rewrite convert_kv_plain. cbn [fst].
    now rewrite format_xml_escape_text. }
  split; [reflexivity|]. split; [exact Hdict|]. split; [reflexivity|].
  split; [|split].
  - intros ids parent w.
    change (fst (convert parseString_ok retry_budget (VStr s) ids false parent w))
      with (fst (with_attr (convert_kv parseString_ok "item" (VStr s) false
                              (convert_kv_attr w)) w)).
    now rewrite Hleaf.
  - intros key rest ids parent w attr w1 out w2 Hattr Hrest.
    rewrite Hdict, (bind_returns _ _ _ _ _ Hattr).
    rewrite (bind_returns _ _ _ _ _ (Hleaf _ _ w1)).
    now rewrite (bind_returns _ _ _ _ _ Hrest).
  - intros rest this_id i ids parent w out w1 Hrest.
    change (convert_list_loop parseString_ok retry_budget (SCons (VStr s) rest)
              this_id i ids parent false w)
      with ((line <- with_attr
                       (convert_kv parseString_ok "item" (VStr s) false
                          (list_item_attr ids this_id i)) ;;
             out <- convert_list_loop parseString_ok retry_budget rest
                      this_id (S i) ids parent false ;;
             ret (line ++ out)) w).
    rewrite (bind_returns _ _ _ _ _ (Hleaf _ _ w)).
    now rewrite (bind_returns _ _ _ _ _ Hrest).
Qed.

End Dispatch.

(** The witness of C2: the entry [key: True] under the parser of names. *)
Lemma convert_dict_true_entry_witness :
  key_is_valid_xml name_parser "key" = true
  /\ fst (convert_dict name_parser 0 (DCons "key" (VBool true) DNil)
            false "root" false (fresh_world (fun _ => 0%Z)))
     = Returns "<key>True</key>".
Proof.
  split; [reflexivity|].
  rewrite (proj1 (convert_dict_true_entry name_parser 0 "key" "root"
                    (fresh_world (fun _ => 0%Z)) eq_refl)).
  reflexivity.
Defined.

(** ** Document assembler *)

(** C3.  For the mapping [{"a": 1, "b": [1, 2]}] with a root named [root],
    no ids and no type attributes, [dicttoxml] returns the UTF-8 bytes of the
    declaration followed by
    [<root><a>1</a><b><item>1</item><item>2</item></b></root>], and leaves
    the world as it was.  The tags [a], [b] and [item] are names the parser
    accepts. *)
Theorem dicttoxml_example_without_types :
  forall (parseString_ok : string -> bool) (retry_budget : nat) (w : World),
    key_is_valid_xml parseString_ok "a" = true ->
    key_is_valid_xml parseString_ok "b" = true ->
    key_is_valid_xml parseString_ok "item" = true ->
    dicttoxml parseString_ok retry_budget example_mapping true "root" false false w
    = (Returns (encode_utf8
         ("<?xml version=" ++ dquote ++ "1.0" ++ dquote ++ " encoding=" ++ dquote
            ++ "UTF-8" ++ dquote
            ++ " ?><root><a>1</a><b><item>1</item><item>2</item></b></root>")), w).
Proof.
  intros p n w Ha Hb Hi.
  unfold dicttoxml, convert, example_mapping.
  cbn -[make_valid_xml_name convert_kv encode_utf8 append].
  unfold container_attr, convert_list_with, bind, with_attr, ret.
  cbn -[make_valid_xml_name convert_kv encode_utf8 append].
  rewrite !(make_valid_xml_name_valid _ _ _ Ha), !(make_valid_xml_name_valid _ _ _ Hb).
  rewrite !convert_kv_plain.
  rewrite !(make_valid_xml_name_valid _ _ _ Ha), !(make_valid_xml_name_valid _ _ _ Hi).
  reflexivity.
Qed.

(** The witness of C3: the example under the parser of names, right after
    import. *)
Lemma dicttoxml_example_without_types_witness :
  fst (dicttoxml name_parser 0 example_mapping true "root" false false
         (fresh_world (fun _ => 0%Z)))
  = Returns (encode_utf8
       ("<?xml version=" ++ dquote ++ "1.0" ++ dquote ++ " encoding=" ++ dquote
          ++ "UTF-8" ++ dquote
          ++ " ?><root><a>1</a><b><item>1</item><item>2</item></b></root>")).
Proof.
  rewrite (dicttoxml_example_without_types name_parser 0 (fresh_world (fun _ => 0%Z))
             eq_refl eq_refl eq_refl).
  reflexivity.
Defined.

(** ** Conversion engine: containers inside a list *)

Section NestedInList.

Variable parseString_ok : string -> bool.
Variable retry_budget : nat.

(** The loop over a sequence in two parts: the output of the first part, then
    that of the second, whose items are numbered on from the first. *)
Lemma convert_list_loop_app (pre post : Seq) :
  forall (this_id : string) (i : nat) (ids : bool) (parent : string)
         (attr_type : bool) (w : World),
    convert_list_loop parseString_ok retry_budget (seq_app pre post)
      this_id i ids parent attr_type w
    = (before <- convert_list_loop parseString_ok retry_budget pre
                   this_id i ids parent attr_type ;;
       after <- convert_list_loop parseString_ok retry_budget post
                  this_id (i + seq_length pre)%nat ids parent attr_type ;;
       ret (before ++ after)) w.
Proof.
  induction pre as [|item pre IH]; intros this_id i ids parent attr_type w.
  - cbn [seq_app seq_length convert_list_loop]. rewrite bind_ret_l, Nat.add_0_r.
    symmetry. exact (bind_ret_r _ w).
  - cbn [seq_app seq_length convert_list_loop].
    rewrite bind_assoc. apply bind_ext. intros line w1.
    rewrite (bind_cong _ _ _ _ (IH this_id (S i) ids parent attr_type w1)).
    replace (i + S (seq_length pre))%nat with (S i + seq_length pre)%nat by lia.
    rewrite !bind_assoc. apply bind_ext. intros before w2.
    rewrite bind_ret_l, bind_assoc. apply bind_ext. intros after w3.
    rewrite bind_ret_l. unfold ret. now rewrite append_assoc.
Qed.

(** The line of a container in the loop of a list, as an equation between
    calls (both sides raise or spin together).  A dict that is an item of a
    list: without type attributes its
    conversion, under the parent name of the list, is spliced into the output
    of the list as it is; with type attributes it is wrapped in
    [<item type="dict">].  A list that is an item of a list: without type
    attributes its conversion, under the parent name [item], is spliced as it
    is; with type attributes it is wrapped in [<item type="list" ...>], the
    dots being the attributes of the item. *)
Lemma convert_list_loop_container_line :
  forall (pre post : Seq) (this_id : string) (i : nat) (ids : bool) (parent : string)
         (attr_type : bool) (w : World),
    (forall d : Dict,
        convert_list_loop parseString_ok retry_budget
          (seq_app pre (SCons (VDict d) post)) this_id i ids parent attr_type w
        = (before <- convert_list_loop parseString_ok retry_budget pre
                       this_id i ids parent attr_type ;;
           inner <- convert_dict parseString_ok retry_budget d ids parent attr_type ;;
           after <- convert_list_loop parseString_ok retry_budget post
                      this_id (S (i + seq_length pre)) ids parent attr_type ;;
           ret (before
                  ++ (if attr_type
                      then "<item type=" ++ dquote ++ "dict" ++ dquote ++ ">"
                             ++ inner ++ "</item>"
                      else inner)
                  ++ after)) w)
    /\ (forall l : Seq,
        convert_list_loop parseString_ok retry_budget
          (seq_app pre (SCons (VList l) post)) this_id i ids parent attr_type w
        = (before <- convert_list_loop parseString_ok retry_budget pre
                       this_id i ids parent attr_type ;;
           inner <- convert_list parseString_ok retry_budget l ids "item" attr_type ;;
           after <- convert_list_loop parseString_ok retry_budget post
                      this_id (S (i + seq_length pre)) ids parent attr_type ;;
           ret (before
                  ++ (if attr_type
                      then "<item type=" ++ dquote ++ "list" ++ dquote
                             ++ make_attrstring
                                  (list_item_attr ids this_id (i + seq_length pre))
                             ++ ">" ++ inner ++ "</item>"
                      else inner)
                  ++ after)) w).
Proof.
  intros pre post this_id i ids parent attr_type w. split.
  - intros d. rewrite convert_list_loop_app.
    apply bind_ext. intros before w1.
    cbn [convert_list_loop]. cbn [isinstance type_in_str_unicode type_of PyType_eqb
                                   has_isoformat orb].
    rewrite bind_assoc. destruct attr_type; cbn [negb].
    + rewrite bind_assoc. apply bind_ext. intros inner w2.
      rewrite bind_ret_l, bind_assoc. apply bind_ext. intros after w3.
      rewrite bind_ret_l. reflexivity.
    + apply bind_ext. intros inner w2.
      rewrite bind_assoc. apply bind_ext. intros after w3.
      rewrite bind_ret_l. reflexivity.
  - intros l. rewrite convert_list_loop_app.
    apply bind_ext. intros before w1.
    cbn [convert_list_loop]. cbn [isinstance type_in_str_unicode type_of PyType_eqb
                                   has_isoformat orb].
    unfold convert_list.
    rewrite bind_assoc. destruct attr_type; cbn [negb].
    + rewrite bind_assoc. apply bind_ext. intros inner w2.
      rewrite bind_ret_l, bind_assoc. apply bind_ext. intros after w3.
      rewrite bind_ret_l. reflexivity.
    + apply bind_ext. intros inner w2.
      rewrite bind_assoc. apply bind_ext. intros after w3.
      rewrite bind_ret_l. reflexivity.
Qed.

End NestedInList.

(** ** Calls without ids *)

Lemma pure_ret {A : Type} (a : A) : pure_call (ret a).
Proof. exists (Returns a). reflexivity. Qed.

Lemma pure_raise {A : Type} (e : PyExc) : pure_call (@raise A e).
Proof. exists (Raises e). reflexivity. Qed.

Lemma pure_with_attr {A : Type} (r : Outcome A * Attr) : pure_call (with_attr r).
Proof. exists (fst r). reflexivity. Qed.

Lemma pure_bind {A B : Type} (c : M A) (k : A -> M B) :
  pure_call c -> (forall a, pure_call (k a)) -> pure_call (bind c k).
Proof.
  intros [r Hc] Hk. destruct r as [a|e|].
  - destruct (Hk a) as [r' Hr']. exists r'. intros w. unfold bind. now rewrite Hc, Hr'.
  - exists (Raises e). intros w. unfold bind. now rewrite Hc.
  - exists Spins. intros w. unfold bind. now rewrite Hc.
Qed.

Lemma pure_sanitized {A : Type} (p : string * Attr) (k : string -> Attr -> M A) :
  (forall key attr, pure_call (k key attr)) ->
  pure_call (let '(key, attr) := p in k key attr).
Proof. intros H. destruct p as [key attr]. apply H. Qed.

Ltac pure_steps :=
  repeat first
    [ apply pure_ret | apply pure_raise | apply pure_with_attr
    | assumption
    | apply pure_bind; [|intro]
    | apply pure_sanitized; intros ].

Section WithoutIds.

Variable parseString_ok : string -> bool.
Variable retry_budget : nat.

Lemma pure_convert_chars (attr_type : bool) (s : string) :
  forall (this_id : string) (i : nat),
    pure_call (convert_chars parseString_ok false attr_type s this_id i).
Proof.
  induction s as [|c s IH]; intros this_id i; cbn [convert_chars]; pure_steps.
  apply IH.
Qed.

(** Without ids the two converters of containers neither read nor change the
    world: their outcome is a function of their arguments. *)
Lemma pure_containers :
  (forall v : Value,
      match v with
      | VDict d => forall parent attr_type,
          pure_call (convert_dict parseString_ok retry_budget d false parent attr_type)
      | VList l => forall this_id i parent attr_type,
          pure_call (convert_list_loop parseString_ok retry_budget l this_id i
                       false parent attr_type)
      | _ => True
      end)
  /\ (forall (d : Dict) parent attr_type,
      pure_call (convert_dict parseString_ok retry_budget d false parent attr_type))
  /\ (forall (l : Seq) this_id i parent attr_type,
      pure_call (convert_list_loop parseString_ok retry_budget l this_id i
                   false parent attr_type)).
Proof.
  apply Value_Dict_Seq_ind; try (intros; exact I); try (intros ? H; exact H).
  - intros parent attr_type. cbn [convert_dict]. apply pure_ret.
  - intros key val IHval rest IHrest parent attr_type.
    cbn [convert_dict]. unfold dict_entry_attr.
    apply pure_bind; [apply pure_ret | intros attr].
    apply pure_sanitized. intros key' attr'.
    apply pure_bind; [| intros line; apply pure_bind; [apply IHrest | intros; apply pure_ret]].
    destruct val; cbn [isinstance type_in_str_unicode type_of PyType_eqb has_isoformat orb];
      unfold container_attr, convert_list_with; pure_steps.
    + apply IHval.
    + apply IHval.
  - intros this_id i parent attr_type. cbn [convert_list_loop]. apply pure_ret.
  - intros item IHitem rest IHrest this_id i parent attr_type.
    cbn [convert_list_loop].
    apply pure_bind; [| intros line; apply pure_bind; [apply IHrest | intros; apply pure_ret]].
    destruct item; cbn [isinstance type_in_str_unicode type_of PyType_eqb has_isoformat orb];
      unfold convert_list_with; try (destruct attr_type; cbn [negb]); pure_steps;
      try apply IHitem.
Qed.

End WithoutIds.

(** ** Identity allocator *)

Lemma mem_In (x : string) (l : list string) : mem x l = true <-> In x l.
Proof.
  unfold mem. rewrite existsb_exists. split.
  - intros [y [Hy Heq]]. apply String.eqb_eq in Heq. now subst.
  - intros H. exists x. split; [assumption | apply String.eqb_refl].
Qed.

Lemma mem_false (x : string) (l : list string) : mem x l = false -> ~ In x l.
Proof. intros H Hin. apply mem_In in Hin. congruence. Qed.

Lemma NoDup_snoc (x : string) (l : list string) :
  NoDup l -> ~ In x l -> NoDup (l ++ [x]).
Proof.
  intros Hl Hx. induction Hl as [|y l Hy Hl IH]; simpl.
  - constructor; [intros []| constructor].
  - constructor.
    + rewrite in_app_iff. intros [H|[H|[]]]; [now apply Hy|].
      subst. apply Hx. now left.
    + apply IH. intros H. apply Hx. now right.
Qed.

Lemma engine_step_refl (w : World) : engine_step w w.
Proof.
  split; [|repeat split].
  exists []. rewrite app_nil_r. split; [reflexivity | trivial].
Qed.

Lemma engine_step_trans (w1 w2 w3 : World) :
  engine_step w1 w2 -> engine_step w2 w3 -> engine_step w1 w3.
Proof.
  intros [[l1 [E1 N1]] [A1 [B1 C1]]] [[l2 [E2 N2]] [A2 [B2 C2]]].
  split; [|repeat split; congruence].
  exists (l1 ++ l2)%list. rewrite E2, E1, app_assoc. split; [reflexivity|].
  intros H. rewrite <- E1. apply N2. rewrite E1. now apply N1.
Qed.

Lemma engine_ret {A : Type} (a : A) : engine_call (ret a).
Proof. intros w. apply engine_step_refl. Qed.

Lemma engine_raise {A : Type} (e : PyExc) : engine_call (@raise A e).
Proof. intros w. apply engine_step_refl. Qed.

Lemma engine_with_attr {A : Type} (r : Outcome A * Attr) : engine_call (with_attr r).
Proof. intros w. apply engine_step_refl. Qed.

Lemma engine_bind {A B : Type} (c : M A) (k : A -> M B) :
  engine_call c -> (forall a, engine_call (k a)) -> engine_call (bind c k).
Proof.
  intros Hc Hk w. specialize (Hc w). unfold bind.
  destruct (c w) as [[a|e|] w']; cbn [snd] in Hc |- *; try assumption.
  eapply engine_step_trans; [exact Hc | apply Hk].
Qed.

Lemma engine_sanitized {A : Type} (p : string * Attr) (k : string -> Attr -> M A) :
  (forall key attr, engine_call (k key attr)) ->
  engine_call (let '(key, attr) := p in k key attr).
Proof. intros H. destruct p as [key attr]. apply H. Qed.

Lemma engine_make_id (element : string) : engine_call (make_id element).
Proof.
  intros w. unfold make_id, bind, randint, ret. cbn [snd].
  split; [|repeat split].
  exists []. cbn [ids set_drawn]. rewrite app_nil_r. split; [reflexivity | trivial].
Qed.

Lemma make_id_ids (element : string) (w : World) :
  ids (snd (make_id element w)) = ids w.
Proof. reflexivity. Qed.

Lemma make_id_returns (element : string) (w : World) :
  exists n, fst (make_id element w) = Returns (element ++ "_" ++ str_of_Z n)
            /\ (100000 <= n <= 999999)%Z.
Proof.
  eexists. split; [reflexivity|].
  pose proof (Z.mod_pos_bound (randoms w (drawn w)) (999999 - 100000 + 1)%Z ltac:(lia)).
  lia.
Qed.

(** When the loop of the allocator ends, it has appended one identifier, which
    was not in the list. *)
Lemma get_unique_id_loop_returns (retries : nat) :
  forall (element this_id : string) (w w' : World),
    get_unique_id_loop retries element this_id w = (Returns tt, w') ->
    exists id, ~ In id (ids w) /\ ids w' = (ids w ++ [id])%list
               /\ same_defaults w w'.
Proof.
  induction retries as [|retries IH]; intros element this_id w w' H;
    cbn [get_unique_id_loop] in H;
    destruct (mem this_id (ids w)) eqn:Hmem; cbn [negb] in H.
  - discriminate.
  - injection H as <-. exists this_id. repeat split. now apply mem_false.
  - unfold bind in H.
    destruct (make_id element w) as [[id'|e|] w1] eqn:Hid; try discriminate.
    apply IH in H. destruct H as [id [Hnew [Hids Hsame]]].
    assert (Hw1 : w1 = snd (make_id element w)) by now rewrite Hid.
    exists id. rewrite Hw1 in Hnew, Hids, Hsame. rewrite make_id_ids in Hnew, Hids.
    repeat split; try assumption; destruct Hsame as [? [? ?]]; assumption.
  - injection H as <-. exists this_id. repeat split. now apply mem_false.
Qed.

Lemma engine_get_unique_id_loop (retries : nat) :
  forall element this_id, engine_call (get_unique_id_loop retries element this_id).
Proof.
  induction retries as [|retries IH]; intros element this_id w;
    cbn [get_unique_id_loop]; destruct (mem this_id (ids w)) eqn:Hmem; cbn [negb snd].
  - apply engine_step_refl.
  - split; [|repeat split]. exists [this_id]. split; [reflexivity|].
    intros H. apply NoDup_snoc; [assumption | now apply mem_false].
  - apply (engine_bind (make_id element)); [apply engine_make_id | intros a; apply IH].
  - split; [|repeat split]. exists [this_id]. split; [reflexivity|].
    intros H. apply NoDup_snoc; [assumption | now apply mem_false].
Qed.

Lemma engine_ids_last : engine_call ids_last.
Proof.
  intros w. unfold ids_last. destruct (rev (ids w)); apply engine_step_refl.
Qed.

Lemma engine_get_unique_id (retry_budget : nat) (element : string) :
  engine_call (get_unique_id retry_budget element).
Proof.
  unfold get_unique_id.
  apply engine_bind; [apply engine_make_id | intros this_id].
  apply engine_bind; [apply engine_get_unique_id_loop | intros _].
  apply engine_ids_last.
Qed.

(** What [get_unique_id] returns is the identifier its loop appended. *)
Lemma get_unique_id_returns (retry_budget : nat) (element : string) (w w' : World)
    (id : string) :
  get_unique_id retry_budget element w = (Returns id, w') ->
  ~ In id (ids w) /\ ids w' = (ids w ++ [id])%list /\ same_defaults w w'.
Proof.
  unfold get_unique_id, bind. intros H.
  destruct (make_id element w) as [[this_id|e|] w1] eqn:Hid; try discriminate.
  assert (Hw1 : w1 = snd (make_id element w)) by now rewrite Hid.
  destruct (get_unique_id_loop retry_budget element this_id w1) as [[[]|e|] w2] eqn:Hloop;
    try discriminate.
  apply get_unique_id_loop_returns in Hloop. destruct Hloop as [x [Hnew [Hids Hsame]]].
  rewrite Hw1, make_id_ids in Hnew, Hids.
  unfold ids_last in H. rewrite Hids, rev_app_distr in H. cbn [rev app] in H.
  injection H as <- <-. repeat split; try assumption;
    rewrite Hw1 in Hsame; destruct Hsame as [? [? ?]]; assumption.
Qed.

(** The allocator returns as soon as a candidate is new: here, when the first
    one is. *)
Lemma get_unique_id_first_candidate (retry_budget : nat) (element : string) (w : World) :
  let id := element ++ "_"
              ++ str_of_Z (100000 + randoms w (drawn w) mod (999999 - 100000 + 1)) in
  ~ In id (ids w) ->
  get_unique_id retry_budget element w
  = (Returns id, set_ids (ids w ++ [id])%list (set_drawn (S (drawn w)) w)).
Proof.
  intros id Hnew. unfold get_unique_id, bind, make_id, bind, randint, ret.
  fold id.
  assert (Hmem : mem id (ids w) = false).
  { destruct (mem id (ids w)) eqn:E; [|reflexivity]. apply mem_In in E. contradiction. }
  destruct retry_budget; cbn [get_unique_id_loop set_drawn ids]; rewrite Hmem; cbn [negb];
    unfold ids_last; cbn [ids set_ids]; rewrite rev_app_distr; reflexivity.
Qed.

(** ** What a conversion does to the world *)

Ltac engine_steps :=
  repeat first
    [ apply engine_ret | apply engine_raise | apply engine_with_attr
    | apply engine_get_unique_id
    | assumption
    | apply engine_bind; [|intro]
    | apply engine_sanitized; intros ].

Section WorldOfEngine.

Variable parseString_ok : string -> bool.
Variable retry_budget : nat.

Lemma engine_convert_chars (ids attr_type : bool) (s : string) :
  forall (this_id : string) (i : nat),
    engine_call (convert_chars parseString_ok ids attr_type s this_id i).
Proof.
  induction s as [|c s IH]; intros this_id i; cbn [convert_chars]; engine_steps.
  apply IH.
Qed.

(** The converters of containers only extend [ids], through the allocator. *)
Lemma engine_containers :
  (forall v : Value,
      match v with
      | VDict d => forall ids parent attr_type,
          engine_call (convert_dict parseString_ok retry_budget d ids parent attr_type)
      | VList l => forall this_id i ids parent attr_type,
          engine_call (convert_list_loop parseString_ok retry_budget l this_id i
                         ids parent attr_type)
      | _ => True
      end)
  /\ (forall (d : Dict) ids parent attr_type,
      engine_call (convert_dict parseString_ok retry_budget d ids parent attr_type))
  /\ (forall (l : Seq) this_id i ids parent attr_type,
      engine_call (convert_list_loop parseString_ok retry_budget l this_id i
                     ids parent attr_type)).
Proof.
  apply Value_Dict_Seq_ind; try (intros; exact I); try (intros ? H; exact H).
  - intros ids parent attr_type. cbn [convert_dict]. apply engine_ret.
  - intros key val IHval rest IHrest ids parent attr_type.
    cbn [convert_dict]. unfold dict_entry_attr.
    apply engine_bind; [destruct ids; engine_steps | intros attr].
    apply engine_sanitized. intros key' attr'.
    apply engine_bind;
      [| intros line; apply engine_bind; [apply IHrest | intros; apply engine_ret]].
    destruct val; cbn [isinstance type_in_str_unicode type_of PyType_eqb has_isoformat orb];
      unfold container_attr, convert_list_with; engine_steps;
      try (destruct ids; engine_steps); try apply IHval.
  - intros this_id i ids parent attr_type. cbn [convert_list_loop]. apply engine_ret.
  - intros item IHitem rest IHrest this_id i ids parent attr_type.
    cbn [convert_list_loop].
    apply engine_bind;
      [| intros line; apply engine_bind; [apply IHrest | intros; apply engine_ret]].
    destruct item; cbn [isinstance type_in_str_unicode type_of PyType_eqb has_isoformat orb];
      unfold convert_list_with; try (destruct attr_type; cbn [negb]); engine_steps;
      try (destruct ids; engine_steps); try apply IHitem.
Qed.

Lemma engine_convert_list (l : Seq) (ids : bool) (parent : string) (attr_type : bool) :
  engine_call (convert_list parseString_ok retry_budget l ids parent attr_type).
Proof.
  unfold convert_list, convert_list_with.
  apply engine_bind; [destruct ids; engine_steps | intros this_id].
  apply engine_containers.
Qed.

(** A call that omits [attr] leaves [ids] alone. *)
Lemma with_default_ids {A : Type} (get : World -> Attr) (set : Attr -> World -> World)
    (f : Attr -> Outcome A * Attr) (w : World) :
  (forall a w0, ids (set a w0) = ids w0) ->
  ids_grow w (snd (with_default get set f w)).
Proof.
  intros Hset. exists []. unfold with_default. cbn [snd].
  rewrite Hset, app_nil_r. split; [reflexivity | trivial].
Qed.

Lemma convert_ids_grow (obj : Value) (ids attr_type : bool) (parent : string) (w : World) :
  ids_grow w (snd (convert parseString_ok retry_budget obj ids attr_type parent w)).
Proof.
  unfold convert.
  destruct obj; cbn [isinstance type_in_str_unicode type_of PyType_eqb has_isoformat orb];
    try (apply with_default_ids; reflexivity).
  - apply engine_containers.
  - apply engine_convert_list.
  - apply engine_raise.
Qed.

Lemma dicttoxml_ids_grow (obj : Value) (root : bool) (custom_root : string)
    (ids attr_type : bool) (w : World) :
  ids_grow w
    (snd (dicttoxml parseString_ok retry_budget obj root custom_root ids attr_type w)).
Proof.
  unfold dicttoxml, bind.
  destruct root.
  - pose proof (convert_ids_grow obj ids attr_type custom_root w) as H.
    destruct (convert parseString_ok retry_budget obj ids attr_type custom_root w)
      as [[body|e|] w']; exact H.
  - pose proof (convert_ids_grow obj ids attr_type "" w) as H.
    destruct (convert parseString_ok retry_budget obj ids attr_type "" w)
      as [[body|e|] w']; exact H.
Qed.

Lemma reachable_NoDup (w : World) :
  reachable parseString_ok retry_budget w -> NoDup (ids w).
Proof.
  induction 1 as [rnd | w obj root custom_root ids attr_type Hw IH].
  - constructor.
  - destruct (dicttoxml_ids_grow obj root custom_root ids attr_type w) as [l [E N]].
    rewrite E. now apply N.
Qed.

End WorldOfEngine.

Lemma NoDup_app_disjoint (a b : list string) :
  NoDup (a ++ b) -> forall x, In x b -> ~ In x a.
Proof.
  induction a as [|y a IH]; cbn [app]; intros H x Hb Ha; [exact Ha|].
  inversion H as [|? ? Hy Hrest]; subst.
  destruct Ha as [->|Ha].
  - apply Hy. rewrite in_app_iff. now right.
  - now apply (IH Hrest x).
Qed.

(** C8.  An identifier that [get_unique_id] returns was not in [ids] when it
    was chosen and is in [ids], at the end, when it is returned; so [ids]
    never holds an identifier twice, in any world a process reaches; and of
    two conversions in a row, the second is issued no identifier that was
    issued before. *)
Theorem get_unique_id_never_reuses :
  forall (parseString_ok : string -> bool) (retry_budget : nat),
    (forall (element : string) (w w' : World) (id : string),
        get_unique_id retry_budget element w = (Returns id, w') ->
        ~ In id (ids w) /\ ids w' = (ids w ++ [id])%list)
    /\ (forall w : World,
        reachable parseString_ok retry_budget w -> NoDup (ids w))
    /\ (forall (w : World) obj1 root1 name1 ids1 types1 obj2 root2 name2 ids2 types2,
        reachable parseString_ok retry_budget w ->
        let w1 := snd (dicttoxml parseString_ok retry_budget
                         obj1 root1 name1 ids1 types1 w) in
        let w2 := snd (dicttoxml parseString_ok retry_budget
                         obj2 root2 name2 ids2 types2 w1) in
        exists issued1 issued2 : list string,
          ids w1 = (ids w ++ issued1)%list
          /\ ids w2 = (ids w1 ++ issued2)%list
          /\ NoDup (ids w ++ issued1 ++ issued2)%list
          /\ (forall id, In id issued2 -> ~ In id (ids w ++ issued1)%list)).
Proof.
  intros p n. split; [|split].
  - intros element w w' id H. apply get_unique_id_returns in H. tauto.
  - apply reachable_NoDup.
  - intros w obj1 root1 name1 ids1 types1 obj2 root2 name2 ids2 types2 Hw w1 w2.
    destruct (dicttoxml_ids_grow p n obj1 root1 name1 ids1 types1 w) as [l1 [E1 N1]].
    destruct (dicttoxml_ids_grow p n obj2 root2 name2 ids2 types2 w1) as [l2 [E2 N2]].
    fold w1 in E1. fold w2 in E2.
    assert (H2 : NoDup (ids w2)).
    { apply (reachable_NoDup p n). unfold w2, w1. now do 2 apply reachable_call. }
    exists l1, l2. rewrite E2, E1 in H2. rewrite <- app_assoc in H2.
    repeat split; try assumption.
    intros id Hid. rewrite app_assoc in H2. now apply (NoDup_app_disjoint _ _ H2).
Qed.

(** The witness of C8: the first identifier issued after import. *)
Lemma get_unique_id_never_reuses_witness :
  get_unique_id 0 "root" (fresh_world (fun _ => 0%Z))
  = (Returns "root_100000",
     set_ids ["root_100000"] (set_drawn 1 (fresh_world (fun _ => 0%Z))))
  /\ ~ In "root_100000" (ids (fresh_world (fun _ => 0%Z))).
Proof.
  split; [reflexivity|].
  exact (proj1 (proj1 (get_unique_id_never_reuses name_parser 0) "root"
                  (fresh_world (fun _ => 0%Z)) _ "root_100000" eq_refl)).
Defined.

(** ** Determinism without ids *)

Section Determinism.

Variable parseString_ok : string -> bool.
Variable retry_budget : nat.

(** On a default dict the sanitizer of the tag [item] does what it does on an
    empty dict, and what it leaves is again a possible default dict. *)
Lemma make_valid_xml_name_item_default (a : Attr) :
  default_ok parseString_ok a ->
  make_valid_xml_name parseString_ok "item" a
  = make_valid_xml_name parseString_ok "item" []
  /\ default_ok parseString_ok (snd (make_valid_xml_name parseString_ok "item" a)).
Proof.
  intros [->|[Hitem ->]].
  - split; [reflexivity|].
    destruct (key_is_valid_xml parseString_ok "item") eqn:Hitem.
    + rewrite (make_valid_xml_name_valid _ _ _ Hitem). now left.
    + rewrite (make_valid_xml_name_fixed _ _ _ Hitem eq_refl eq_refl). right. now split.
  - rewrite !(make_valid_xml_name_fixed _ _ _ Hitem eq_refl eq_refl).
    split; [reflexivity|]. right. now split.
Qed.

Lemma convert_kv_item_default (val : Value) (attr_type : bool) (a : Attr) :
  default_ok parseString_ok a ->
  fst (convert_kv parseString_ok "item" val attr_type a)
  = fst (convert_kv parseString_ok "item" val attr_type [])
  /\ default_ok parseString_ok (snd (convert_kv parseString_ok "item" val attr_type a)).
Proof.
  intros Ha. destruct (make_valid_xml_name_item_default a Ha) as [E Hok].
  destruct attr_type.
  - rewrite !convert_kv_typed. split; [reflexivity | exact Hok].
  - rewrite !convert_kv_plain, E. split; [reflexivity | rewrite <- E; exact Hok].
Qed.

Lemma convert_none_item_default (val : Value) (attr_type : bool) (a : Attr) :
  default_ok parseString_ok a ->
  fst (convert_none parseString_ok "item" val attr_type a)
  = fst (convert_none parseString_ok "item" val attr_type [])
  /\ default_ok parseString_ok (snd (convert_none parseString_ok "item" val attr_type a)).
Proof.
  intros Ha. destruct (make_valid_xml_name_item_default a Ha) as [E Hok].
  destruct attr_type.
  - rewrite !convert_none_typed. split; [reflexivity | exact Hok].
  - rewrite !convert_none_plain, E. split; [reflexivity | rewrite <- E; exact Hok].
Qed.

Lemma engine_step_defaults_ok (w w' : World) :
  engine_step w w' -> defaults_ok parseString_ok w -> defaults_ok parseString_ok w'.
Proof.
  intros [_ [Hkv [_ Hnone]]] [H1 H2]. split; [now rewrite Hkv | now rewrite Hnone].
Qed.

(** [convert] keeps the default dicts within what they can hold. *)
Lemma convert_defaults_ok (obj : Value) (ids attr_type : bool) (parent : string) (w : World) :
  defaults_ok parseString_ok w ->
  defaults_ok parseString_ok
    (snd (convert parseString_ok retry_budget obj ids attr_type parent w)).
Proof.
  intros Hw. pose proof Hw as [Hkv Hnone]. unfold convert.
  destruct obj; cbn [isinstance type_in_str_unicode type_of PyType_eqb has_isoformat orb];
    unfold with_default; cbn [snd];
    try (split; cbn [convert_kv_attr convert_none_attr set_convert_kv_attr];
         [now apply convert_kv_item_default | exact Hnone]).
  - split; cbn [convert_kv_attr convert_none_attr set_convert_none_attr];
      [exact Hkv | now apply convert_none_item_default].
  - eapply engine_step_defaults_ok; [apply engine_containers | exact Hw].
  - eapply engine_step_defaults_ok; [apply engine_convert_list | exact Hw].
  - exact Hw.
Qed.

Lemma dicttoxml_defaults_ok (obj : Value) (root : bool) (custom_root : string)
    (ids attr_type : bool) (w : World) :
  defaults_ok parseString_ok w ->
  defaults_ok parseString_ok
    (snd (dicttoxml parseString_ok retry_budget obj root custom_root ids attr_type w)).
Proof.
  intros Hw. unfold dicttoxml, bind. destruct root.
  - pose proof (convert_defaults_ok obj ids attr_type custom_root w Hw) as H.
    destruct (convert parseString_ok retry_budget obj ids attr_type custom_root w)
      as [[body|e|] w']; exact H.
  - pose proof (convert_defaults_ok obj ids attr_type "" w Hw) as H.
    destruct (convert parseString_ok retry_budget obj ids attr_type "" w)
      as [[body|e|] w']; exact H.
Qed.

Lemma reachable_defaults_ok (w : World) :
  reachable parseString_ok retry_budget w -> defaults_ok parseString_ok w.
Proof.
  induction 1 as [rnd | w obj root custom_root ids attr_type Hw IH].
  - split; now left.
  - now apply dicttoxml_defaults_ok.
Qed.

Lemma pure_call_fst {A : Type} (c : M A) (w1 w2 : World) :
  pure_call c -> fst (c w1) = fst (c w2).
Proof. intros [r H]. now rewrite !H. Qed.

(** Without ids the outcome of [convert] is the same in any two worlds whose
    default dicts are possible ones. *)
Lemma convert_same_outcome (obj : Value) (attr_type : bool) (parent : string)
    (w1 w2 : World) :
  defaults_ok parseString_ok w1 -> defaults_ok parseString_ok w2 ->
  fst (convert parseString_ok retry_budget obj false attr_type parent w1)
  = fst (convert parseString_ok retry_budget obj false attr_type parent w2).
Proof.
  intros [Hkv1 Hnone1] [Hkv2 Hnone2]. unfold convert.
  destruct obj; cbn [isinstance type_in_str_unicode type_of PyType_eqb has_isoformat orb];
    unfold with_default; cbn [fst];
    try (rewrite (proj1 (convert_kv_item_default _ _ _ Hkv1)),
                 (proj1 (convert_kv_item_default _ _ _ Hkv2)); reflexivity).
  - rewrite (proj1 (convert_none_item_default _ _ _ Hnone1)).
    now rewrite (proj1 (convert_none_item_default _ _ _ Hnone2)).
  - apply pure_call_fst, pure_containers.
  - apply pure_call_fst. unfold convert_list, convert_list_with.
    apply pure_bind; [apply pure_ret | intros this_id; apply pure_containers].
  - reflexivity.
Qed.

(** C5.  Without ids, [dicttoxml] called with the same value and the same
    flags returns the same bytes (or raises the same error) in any two worlds
    a process can be in, whatever conversions came before. *)
Theorem dicttoxml_deterministic_without_ids :
  forall (w1 w2 : World),
    reachable parseString_ok retry_budget w1 ->
    reachable parseString_ok retry_budget w2 ->
    forall (obj : Value) (root : bool) (custom_root : string) (attr_type : bool),
      fst (dicttoxml parseString_ok retry_budget obj root custom_root false attr_type w1)
      = fst (dicttoxml parseString_ok retry_budget obj root custom_root false attr_type w2).
Proof.
  intros w1 w2 H1 H2 obj root custom_root attr_type.
  apply reachable_defaults_ok in H1, H2.
  unfold dicttoxml, bind. destruct root.
  - pose proof (convert_same_outcome obj attr_type custom_root w1 w2 H1 H2) as E.
    destruct (convert parseString_ok retry_budget obj false attr_type custom_root w1)
      as [[b1|e1|] w1'];
    destruct (convert parseString_ok retry_budget obj false attr_type custom_root w2)
      as [[b2|e2|] w2']; cbn [fst] in E; try discriminate; try reflexivity;
      injection E as ->; reflexivity.
  - pose proof (convert_same_outcome obj attr_type "" w1 w2 H1 H2) as E.
    destruct (convert parseString_ok retry_budget obj false attr_type "" w1)
      as [[b1|e1|] w1'];
    destruct (convert parseString_ok retry_budget obj false attr_type "" w2)
      as [[b2|e2|] w2']; cbn [fst] in E; try discriminate; try reflexivity;
      injection E as ->; reflexivity.
Qed.

End Determinism.

(** The witness of C5: the example converted right after import, and again
    after a conversion with ids has been through the allocator. *)
Lemma dicttoxml_deterministic_without_ids_witness :
  fst (dicttoxml name_parser 0 example_mapping true "root" false false
         (fresh_world (fun _ => 0%Z)))
  = fst (dicttoxml name_parser 0 example_mapping true "root" false false
           (snd (dicttoxml name_parser 0 example_mapping true "root" true false
                   (fresh_world (fun n => Z.of_nat n))))).
Proof.
  apply dicttoxml_deterministic_without_ids.
  - apply reachable_fresh.
  - apply reachable_call, reachable_fresh.
Defined.

(** ** Worked examples *)

(** The renderer of booleans writes lowercase text, when it is reached. *)
Example convert_bool_lowercase :
  fst (convert_bool name_parser "key" (VBool true) false []) = Returns "<key>true</key>".
Proof. reflexivity. Qed.

(** A text at top level is one element; the loop over its characters, which
    the engine never runs on a text, would give one element per character. *)
Example text_at_top_level :
  fst (convert name_parser 0 (VStr "ab") false false "root" (fresh_world (fun _ => 0%Z)))
  = Returns "<item>ab</item>"
  /\ fst (convert_list name_parser 0 (chars "ab") false "root" false
            (fresh_world (fun _ => 0%Z)))
     = Returns "<item>a</item><item>b</item>".
Proof. split; reflexivity. Qed.

(** The loop written for a text agrees with the loop of [convert_list] on its
    characters. *)
Lemma convert_chars_is_loop_on_chars (parseString_ok : string -> bool) (retry_budget : nat)
    (ids attr_type : bool) (parent : string) (s : string) :
  forall (this_id : string) (i : nat) (w : World),
    convert_chars parseString_ok ids attr_type s this_id i w
    = convert_list_loop parseString_ok retry_budget (chars s) this_id i
        ids parent attr_type w.
Proof.
  induction s as [|c s IH]; intros this_id i w; [reflexivity|].
  cbn [convert_chars chars convert_list_loop].
  cbn [isinstance type_in_str_unicode type_of PyType_eqb has_isoformat orb].
  apply bind_ext. intros line w1. apply bind_cong, IH.
Qed.

(** An object of no supported kind makes the engine raise the error that
    carries its text and the name of its type. *)
Example unsupported_value_raises :
  fst (convert name_parser 0 (VList (seq_of [VInt 1; VOther "<object>" "object"]))
         false false "root" (fresh_world (fun _ => 0%Z)))
  = Raises (TypeError "Unsupported data type: <object> (object)").
Proof. reflexivity. Qed.

(** With ids, a list takes one identifier and numbers its items from it. *)
Example list_items_share_one_id :
  fst (convert name_parser 0 (VList (seq_of [VInt 1; VInt 2])) true false "root"
         (fresh_world (fun _ => 0%Z)))
  = Returns ("<item id=" ++ dquote ++ "root_100000_1" ++ dquote ++ ">1</item>"
             ++ "<item id=" ++ dquote ++ "root_100000_2" ++ dquote ++ ">2</item>").
Proof. reflexivity. Qed.

(** With type attributes a list of empty containers is wrapped item by
    item. *)
Example empty_containers_with_types :
  fst (convert name_parser 0 (VList (seq_of [VDict DNil; VList SNil])) false true "root"
         (fresh_world (fun _ => 0%Z)))
  = Returns ("<item type=" ++ dquote ++ "dict" ++ dquote ++ "></item>"
             ++ "<item type=" ++ dquote ++ "list" ++ dquote ++ "></item>").
Proof. reflexivity. Qed.

(** ** More on the escaper *)

Lemma xml_escape_text (s : string) : xml_escape (VStr s) = VStr (escape_chars s).
Proof.
  change (xml_escape (VStr s)) with (VStr (five_replacements s)).
  now rewrite five_replacements_escape_chars.
Qed.

Lemma contains_app (c : ascii) (a b : string) :
  contains c (a ++ b) = contains c a || contains c b.
Proof.
  induction a as [|x a IH]; cbn [append contains]; [reflexivity|].
  now rewrite IH, orb_assoc.
Qed.

(** The entity of a character, by cases. *)
Lemma entity_cases (c : ascii) :
  (is_special c = false /\ entity c = String c "")
  \/ (c = "&"%char /\ entity c = "&amp;")
  \/ (c = ascii_of_nat 34 /\ entity c = "&quot;")
  \/ (c = "'"%char /\ entity c = "&apos;")
  \/ (c = "<"%char /\ entity c = "&lt;")
  \/ (c = ">"%char /\ entity c = "&gt;").
Proof.
  unfold entity, is_special.
  destruct (Ascii.eqb_spec c "&") as [->|H1]; [right; left; now split|].
  destruct (Ascii.eqb_spec c (ascii_of_nat 34)) as [->|H2];
    [right; right; left; now split|].
  destruct (Ascii.eqb_spec c "'") as [->|H3]; [right; right; right; left; now split|].
  destruct (Ascii.eqb_spec c "<") as [->|H4];
    [right; right; right; right; left; now split|].
  destruct (Ascii.eqb_spec c ">") as [->|H5];
    [right; right; right; right; right; now split|].
  left. now split.
Qed.

Lemma is_markup_cases (c : ascii) :
  is_markup c = true ->
  c = ascii_of_nat 34 \/ c = "'"%char \/ c = "<"%char \/ c = ">"%char.
Proof.
  unfold is_markup. rewrite !orb_true_iff, !Ascii.eqb_eq. tauto.
Qed.

Lemma is_markup_special (c : ascii) : is_markup c = true -> is_special c = true.
Proof.
  intros H. apply is_markup_cases in H.
  destruct H as [-> | [-> | [-> | ->]]]; reflexivity.
Qed.

Lemma entity_no_markup (c x : ascii) :
  is_markup c = true -> contains c (entity x) = false.
Proof.
  intros Hc.
  destruct (entity_cases x) as [[Hx ->]|[[-> ->]|[[-> ->]|[[-> ->]|[[-> ->]|[-> ->]]]]]];
    try (apply is_markup_cases in Hc; destruct Hc as [-> | [-> | [-> | ->]]]; reflexivity).
  cbn [contains]. rewrite orb_false_r. apply Ascii.eqb_neq. intros ->.
  apply is_markup_special in Hc. congruence.
Qed.

(** X1.  Escaped text holds no angle bracket and no quote: inside an element it
    cannot open or close a tag, whatever the text was. *)
Theorem xml_escape_leaves_no_markup :
  forall (s : string) (c : ascii),
    is_markup c = true ->
    contains c (format (xml_escape (VStr s))) = false.
Proof.
  intros s c Hc. rewrite format_xml_escape_text.
  induction s as [|x s IH]; cbn [escape_chars]; [reflexivity|].
  now rewrite contains_app, IH, entity_no_markup.
Qed.

Lemma xml_escape_leaves_no_markup_witness :
  is_markup "<" = true
  /\ contains "<" (format (xml_escape (VStr "<a href='x'>1 < 2</a>"))) = false.
Proof.
  split; [reflexivity|].
  apply (xml_escape_leaves_no_markup "<a href='x'>1 < 2</a>" "<"). reflexivity.
Defined.

Lemma escape_chars_injective (s1 : string) :
  forall s2, escape_chars s1 = escape_chars s2 -> s1 = s2.
Proof.
  induction s1 as [|c1 s1 IH]; intros [|c2 s2] H; cbn [escape_chars] in H.
  - reflexivity.
  - exfalso.
    destruct (entity_cases c2) as [[_ E]|[[_ E]|[[_ E]|[[_ E]|[[_ E]|[_ E]]]]]];
      rewrite E in H; discriminate.
  - exfalso.
    destruct (entity_cases c1) as [[_ E]|[[_ E]|[[_ E]|[[_ E]|[[_ E]|[_ E]]]]]];
      rewrite E in H; discriminate.
  - destruct (entity_cases c1) as [[N1 E1]|[[-> E1]|[[-> E1]|[[-> E1]|[[-> E1]|[-> E1]]]]]];
    destruct (entity_cases c2) as [[N2 E2]|[[-> E2]|[[-> E2]|[[-> E2]|[[-> E2]|[-> E2]]]]]];
      rewrite ?E1, ?E2 in H; cbn [append] in H;
      try discriminate;
      try (injection H as H; apply IH in H; now subst);
      try (injection H as -> H; apply IH in H; now subst);
      try (injection H as -> _; discriminate);
      try (injection H as <- _; discriminate).
Qed.

(** X2.  Escaping loses nothing: two texts with the same escaped form are the same
    text. *)
Theorem xml_escape_injective :
  forall s1 s2 : string,
    xml_escape (VStr s1) = xml_escape (VStr s2) -> s1 = s2.
Proof.
  intros s1 s2 H. rewrite !xml_escape_text in H. injection H as H.
  now apply escape_chars_injective.
Qed.

Lemma xml_escape_injective_witness :
  xml_escape (VStr "a&b") = xml_escape (VStr "a&b") /\ "a&b" = "a&b".
Proof.
  split; [reflexivity|]. apply xml_escape_injective. reflexivity.
Defined.

Lemma length_app (a b : string) :
  String.length (a ++ b) = (String.length a + String.length b)%nat.
Proof. induction a as [|x a IH]; cbn [append String.length]; [reflexivity | now rewrite IH]. Qed.

Lemma escape_chars_length (s : string) :
  (String.length s <= String.length (escape_chars s))%nat
  /\ (all_chars (fun c => negb (is_special c)) s = false ->
      (String.length s < String.length (escape_chars s))%nat).
Proof.
  induction s as [|c s [IH1 IH2]]; cbn [escape_chars all_chars String.length].
  - split; [lia | discriminate].
  - rewrite length_app.
    destruct (entity_cases c) as [[N E]|[[-> E]|[[-> E]|[[-> E]|[[-> E]|[-> E]]]]]];
      rewrite E; cbn [String.length]; try (split; [lia | intros _; lia]).
    rewrite N. cbn [negb andb]. split; [lia|]. intros H. apply IH2 in H. lia.
Qed.

Lemma escape_chars_plain (s : string) :
  all_chars (fun c => negb (is_special c)) s = true -> escape_chars s = s.
Proof.
  induction s as [|c s IH]; cbn [escape_chars all_chars]; [reflexivity|].
  intros H. apply andb_true_iff in H as [Hc Hs]. apply negb_true_iff in Hc.
  destruct (entity_cases c) as [[N E]|[[-> E]|[[-> E]|[[-> E]|[[-> E]|[-> E]]]]]];
    try discriminate.
  rewrite E, (IH Hs). reflexivity.
Qed.

(** X3.  The escaper returns a text as it is exactly when the text holds none of
    the five characters; it never makes a text shorter. *)
Theorem xml_escape_fixes_plain_text_only :
  forall s : string,
    (xml_escape (VStr s) = VStr s
     <-> all_chars (fun c => negb (is_special c)) s = true)
    /\ (String.length s <= String.length (format (xml_escape (VStr s))))%nat.
Proof.
  intros s. rewrite format_xml_escape_text, xml_escape_text.
  destruct (escape_chars_length s) as [Hle Hlt]. split; [|exact Hle]. split.
  - intros H. injection H as H.
    destruct (all_chars (fun c => negb (is_special c)) s); [reflexivity|].
    specialize (Hlt eq_refl). rewrite H in Hlt. lia.
  - intros H. now rewrite (escape_chars_plain s H).
Qed.

(** ** Attribute strings and the name attribute *)

Lemma eqb_app_cons_empty (a : string) (c : ascii) (t : string) :
  String.eqb (a ++ String c t) "" = false.
Proof. destruct a; reflexivity. Qed.

Lemma join_pairs_not_empty (k v : string) (rest : Attr) :
  String.eqb
    (join " " (map (fun kv => fst kv ++ "=" ++ dquote ++ snd kv ++ dquote) ((k, v) :: rest)))
    "" = false.
Proof.
  cbn [map join fst snd]. destruct (map _ rest) as [|x l].
  - apply (eqb_app_cons_empty k).
  - cbn [append]. rewrite append_assoc. apply (eqb_app_cons_empty k).
Qed.

Lemma make_attrstring_not_empty (k v : string) (rest : Attr) :
  make_attrstring ((k, v) :: rest)
  = " " ++ join " " (map (fun kv => fst kv ++ "=" ++ dquote ++ snd kv ++ dquote)
                         ((k, v) :: rest)).
Proof. unfold make_attrstring. now rewrite join_pairs_not_empty. Qed.

(** X4.  The attribute string of an empty dict is empty; that of a dict with a
    first entry is one space, the entry as [key="value"], and the attribute
    string of the rest: every pair is preceded by exactly one space, and the
    value is written as it is. *)
Theorem make_attrstring_by_entries :
  make_attrstring [] = ""
  /\ (forall (k v : string) (rest : Attr),
         make_attrstring ((k, v) :: rest)
         = " " ++ k ++ "=" ++ dquote ++ v ++ dquote ++ make_attrstring rest).
Proof.
  split; [reflexivity|]. intros k v rest.
  rewrite make_attrstring_not_empty. destruct rest as [|[k' v'] rest].
  - change (make_attrstring []) with "". cbn [map join fst snd].
    now rewrite ?append_assoc, ?append_nil_r.
  - rewrite make_attrstring_not_empty.
    change (map (fun kv => fst kv ++ "=" ++ dquote ++ snd kv ++ dquote)
              ((k, v) :: (k', v') :: rest))
      with ((k ++ "=" ++ dquote ++ v ++ dquote)
              :: map (fun kv => fst kv ++ "=" ++ dquote ++ snd kv ++ dquote)
                   ((k', v') :: rest)).
    cbn [join map]. now rewrite !append_assoc.
Qed.

Lemma dict_set_keeps_others (k0 v0 k v : string) (d : Attr) :
  In (k, v) d -> k <> k0 -> In (k, v) (dict_set k0 v0 d).
Proof.
  intros Hin Hk. unfold dict_set. induction d as [|[k' v'] d IH]; [destruct Hin|].
  cbn [dict_set_by]. destruct (String.eqb_spec k' k0) as [->|Hne].
  - destruct Hin as [E|Hin]; [injection E as -> _; contradiction | now right].
  - destruct Hin as [E|Hin]; [now left | right; now apply IH].
Qed.

Lemma dict_set_adds_one (k0 v0 k v : string) (d : Attr) :
  In (k, v) (dict_set k0 v0 d) -> In (k, v) d \/ (k, v) = (k0, v0).
Proof.
  unfold dict_set. induction d as [|[k' v'] d IH]; cbn [dict_set_by].
  - intros [E|[]]. right. now symmetry.
  - destruct (String.eqb k' k0).
    + intros [E|Hin]; [right; now symmetry | left; now right].
    + intros [E|Hin]; [left; now left|].
      destruct (IH Hin) as [H|H]; [left; now right | now right].
Qed.

(** X5.  The sanitizer never drops or changes an attribute other than [name] (an
    [id] put there before stays), and the only entry it can add is [name],
    holding the key it was given. *)
Theorem make_valid_xml_name_keeps_attributes :
  forall (parseString_ok : string -> bool) (key : string) (attr : Attr) (k v : string),
    (In (k, v) attr -> k <> "name" ->
     In (k, v) (snd (make_valid_xml_name parseString_ok key attr)))
    /\ (In (k, v) (snd (make_valid_xml_name parseString_ok key attr)) ->
        In (k, v) attr \/ (k, v) = ("name", key)).
Proof.
  intros p key attr k v. unfold make_valid_xml_name.
  destruct (key_is_valid_xml p key); [cbn [snd]; tauto|].
  destruct (isdigit key); [cbn [snd]; tauto|].
  destruct (key_is_valid_xml p (replace " " "_" key)); [cbn [snd]; tauto|].
  cbn [snd]. split.
  - intros Hin Hk. now apply dict_set_keeps_others.
  - apply dict_set_adds_one.
Qed.

Lemma make_valid_xml_name_keeps_attributes_witness :
  In ("id", "root_100000")
    (snd (make_valid_xml_name name_parser "a<b" [("id", "root_100000")])).
Proof.
  apply (proj1 (make_valid_xml_name_keeps_attributes name_parser "a<b"
                  [("id", "root_100000")] "id" "root_100000")).
  - now left.
  - discriminate.
Defined.

(** X6.  A key that the sanitizer cannot repair is written, as it is and without
    escaping, into the [name] attribute of an element called [key]; the text
    of the element is escaped. *)
Theorem unrepaired_key_is_written_unescaped :
  forall (parseString_ok : string -> bool) (retry_budget : nat)
         (key s parent : string) (w : World),
    key_is_valid_xml parseString_ok key = false ->
    isdigit key = false ->
    key_is_valid_xml parseString_ok (replace " " "_" key) = false ->
    key_is_valid_xml parseString_ok "key" = true ->
    convert_dict parseString_ok retry_budget (DCons key (VStr s) DNil)
      false parent false w
    = (Returns ("<key name=" ++ dquote ++ key ++ dquote ++ ">"
                  ++ escape_chars s ++ "</key>"), w).
Proof.
  intros p n key s parent w H1 H2 H3 Hkey.
  cbn -[make_valid_xml_name convert_kv append].
  assert (E : make_valid_xml_name p key [] = ("key", [("name", key)])).
  { unfold make_valid_xml_name. now rewrite H1, H2, H3. }
  rewrite E. unfold bind, with_attr.
  rewrite convert_kv_plain, (make_valid_xml_name_valid _ _ _ Hkey).
  cbn [fst snd ret]. rewrite format_xml_escape_text.
  rewrite make_attrstring_not_empty. cbn [map join fst snd].
  now rewrite ?append_assoc, ?append_nil_r.
Qed.

Lemma unrepaired_key_is_written_unescaped_witness :
  fst (convert_dict name_parser 0 (DCons "a<b" (VStr "1<2") DNil) false "root" false
         (fresh_world (fun _ => 0%Z)))
  = Returns ("<key name=" ++ dquote ++ "a<b" ++ dquote ++ ">1&lt;2</key>").
Proof.
  rewrite (unrepaired_key_is_written_unescaped name_parser 0 "a<b" "1<2" "root"
             (fresh_world (fun _ => 0%Z)) eq_refl eq_refl eq_refl eq_refl).
  reflexivity.
Defined.

(** ** More on the allocator *)

Ltac same_world w :=
  destruct w;
  cbn [ids drawn set_drawn set_ids randoms convert_kv_attr convert_bool_attr
       convert_none_attr];
  rewrite ?Nat.add_succ_r, ?Nat.add_0_r; reflexivity.

Lemma set_drawn_same (w : World) : set_drawn (drawn w) w = w.
Proof. destruct w; reflexivity. Qed.

Lemma candidate_after_draw (element : string) (w : World) (j : nat) :
  candidate element (set_drawn (S (drawn w)) w) j = candidate element w (S j).
Proof.
  unfold candidate. cbn [drawn randoms set_drawn].
  now rewrite Nat.add_succ_r.
Qed.

Lemma make_id_candidate (element : string) (w : World) :
  make_id element w = (Returns (candidate element w 0), set_drawn (S (drawn w)) w).
Proof.
  unfold make_id, bind, randint, ret, candidate. now rewrite Nat.add_0_r.
Qed.

Lemma get_unique_id_loop_first_new (k : nat) :
  forall (retries : nat) (element this_id : string) (w : World),
    (k <= retries)%nat ->
    (forall j, (j < k)%nat -> In (tried element this_id w j) (ids w)) ->
    ~ In (tried element this_id w k) (ids w) ->
    get_unique_id_loop retries element this_id w
    = (Returns tt,
       set_ids (ids w ++ [tried element this_id w k])%list
         (set_drawn (drawn w + k) w)).
Proof.
  induction k as [|k IH]; intros retries element this_id w Hk Hold Hnew.
  - cbn [tried] in Hnew |- *.
    assert (Hmem : mem this_id (ids w) = false).
    { destruct (mem this_id (ids w)) eqn:E; [|reflexivity].
      apply mem_In in E. contradiction. }
    rewrite Nat.add_0_r, set_drawn_same.
    destruct retries; cbn [get_unique_id_loop]; rewrite Hmem; reflexivity.
  - destruct retries as [|retries]; [lia|].
    assert (Hmem : mem this_id (ids w) = true).
    { apply mem_In. apply (Hold 0%nat). lia. }
    cbn [get_unique_id_loop]. rewrite Hmem. cbn [negb].
    unfold bind. rewrite make_id_candidate.
    rewrite (IH retries element (candidate element w 0) (set_drawn (S (drawn w)) w)).
    + cbn [tried]. destruct k; cbn [tried]; rewrite ?candidate_after_draw;
        same_world w.
    + lia.
    + intros j Hj. cbn [ids set_drawn].
      destruct j; cbn [tried]; rewrite ?candidate_after_draw.
      * apply (Hold 1%nat). lia.
      * apply (Hold (S (S j))). lia.
    + cbn [ids set_drawn]. destruct k; cbn [tried] in Hnew |- *;
        rewrite ?candidate_after_draw; exact Hnew.
Qed.

(** X7.  The allocator returns the first candidate that is not in [ids], after
    drawing the ones before it, which it drops; it appends that candidate to
    [ids] and changes nothing else. *)
Theorem get_unique_id_returns_first_new_candidate :
  forall (retry_budget : nat) (element : string) (w : World) (k : nat),
    (k <= retry_budget)%nat ->
    (forall j, (j < k)%nat -> In (candidate element w j) (ids w)) ->
    ~ In (candidate element w k) (ids w) ->
    get_unique_id retry_budget element w
    = (Returns (candidate element w k),
       set_ids (ids w ++ [candidate element w k])%list
         (set_drawn (drawn w + S k) w)).
Proof.
  intros n element w k Hk Hold Hnew.
  unfold get_unique_id, bind. rewrite make_id_candidate.
  rewrite (get_unique_id_loop_first_new k n element (candidate element w 0)
             (set_drawn (S (drawn w)) w)).
  - unfold ids_last. cbn [ids set_ids set_drawn]. rewrite rev_app_distr. cbn [rev app].
    destruct k; cbn [tried]; rewrite ?candidate_after_draw;
      same_world w.
  - exact Hk.
  - intros j Hj. cbn [ids set_drawn].
    destruct j; cbn [tried]; rewrite ?candidate_after_draw; apply Hold; lia.
  - cbn [ids set_drawn]. destruct k; cbn [tried]; rewrite ?candidate_after_draw; exact Hnew.
Qed.

(** The second candidate is returned when the first is taken. *)
Lemma get_unique_id_returns_first_new_candidate_witness :
  fst (get_unique_id 5 "root"
         (mkWorld ["root_100000"] (fun n => Z.of_nat n) 0 [] [] []))
  = Returns "root_100001".
Proof.
  rewrite (get_unique_id_returns_first_new_candidate 5 "root"
             (mkWorld ["root_100000"] (fun n => Z.of_nat n) 0 [] [] []) 1).
  - reflexivity.
  - lia.
  - intros j Hj. assert (j = 0%nat) as -> by lia. now left.
  - cbn. intros [H|[]]. discriminate.
Defined.

Lemma get_unique_id_loop_spins (retries : nat) :
  forall (element this_id : string) (w : World),
    In this_id (ids w) ->
    (forall j, In (candidate element w j) (ids w)) ->
    get_unique_id_loop retries element this_id w
    = (Spins, set_drawn (drawn w + retries) w).
Proof.
  induction retries as [|retries IH]; intros element this_id w Hin Hall;
    cbn [get_unique_id_loop]; apply mem_In in Hin; rewrite Hin; cbn [negb].
  - now rewrite Nat.add_0_r, set_drawn_same.
  - unfold bind. rewrite make_id_candidate. rewrite IH.
    + same_world w.
    + cbn [ids set_drawn]. apply Hall.
    + intros j. cbn [ids set_drawn]. rewrite candidate_after_draw. apply Hall.
Qed.

(** X8.  The loop of the allocator has no bound of its own: when every candidate
    the world will give is already in [ids], it is still retrying after any
    number of draws, and [ids] is as it was. *)
Theorem get_unique_id_retries_without_end :
  forall (retry_budget : nat) (element : string) (w : World),
    (forall j, In (candidate element w j) (ids w)) ->
    get_unique_id retry_budget element w
    = (Spins, set_drawn (drawn w + S retry_budget) w).
Proof.
  intros n element w Hall. unfold get_unique_id, bind. rewrite make_id_candidate.
  rewrite get_unique_id_loop_spins.
  - same_world w.
  - cbn [ids set_drawn]. apply Hall.
  - intros j. cbn [ids set_drawn]. rewrite candidate_after_draw. apply Hall.
Qed.

Lemma get_unique_id_retries_without_end_witness :
  fst (get_unique_id 7 "root" (mkWorld ["root_100000"] (fun _ => 0%Z) 0 [] [] []))
  = Spins.
Proof.
  rewrite (get_unique_id_retries_without_end 7 "root"
             (mkWorld ["root_100000"] (fun _ => 0%Z) 0 [] [] [])).
  - reflexivity.
  - intros j. now left.
Defined.

(** ** More on the engine *)

Lemma pure_call_run {A : Type} (c : M A) (w : World) :
  pure_call c -> c w = (fst (c w), w).
Proof. intros [r H]. now rewrite H. Qed.

Lemma container_attr_off (val : Value) (attr : Attr) (w : World) :
  container_attr false val attr w = (Returns attr, w).
Proof. reflexivity. Qed.

Lemma container_attr_on (val : Value) (attr : Attr) (w : World) :
  container_attr true val attr w
  = (Raises (TypeError "cannot unpack non-iterable type object"), w).
Proof. reflexivity. Qed.

Section MoreOnEngine.

Variable parseString_ok : string -> bool.
Variable retry_budget : nat.

(** X10.  Without ids a conversion leaves the allocator alone: it appends nothing
    to [ids] and draws no random number. *)
Theorem dicttoxml_without_ids_leaves_allocator :
  forall (obj : Value) (root : bool) (custom_root : string) (attr_type : bool) (w : World),
    ids (snd (dicttoxml parseString_ok retry_budget obj root custom_root false attr_type w))
    = ids w
    /\ drawn (snd (dicttoxml parseString_ok retry_budget obj root custom_root
                     false attr_type w))
       = drawn w.
Proof.
  intros obj root custom_root attr_type w.
  assert (H : forall parent,
             ids (snd (convert parseString_ok retry_budget obj false attr_type parent w))
             = ids w
             /\ drawn (snd (convert parseString_ok retry_budget obj false attr_type parent w))
                = drawn w).
  { intros parent. unfold convert.
    destruct obj;
      cbn [isinstance type_in_str_unicode type_of PyType_eqb has_isoformat orb];
      try (split; reflexivity).
    - rewrite (pure_call_run _ w
                 (proj1 (proj2 (pure_containers parseString_ok retry_budget)) d parent attr_type)).
      split; reflexivity.
    - unfold convert_list, convert_list_with. rewrite bind_ret_l.
      rewrite (pure_call_run _ w
                 (proj2 (proj2 (pure_containers parseString_ok retry_budget))
                    l "" 0%nat parent attr_type)).
      split; reflexivity. }
  unfold dicttoxml, bind. destruct root.
  - specialize (H custom_root).
    destruct (convert parseString_ok retry_budget obj false attr_type custom_root w)
      as [[body|e|] w']; exact H.
  - specialize (H "").
    destruct (convert parseString_ok retry_budget obj false attr_type "" w)
      as [[body|e|] w']; exact H.
Qed.

(** A date-like object is converted exactly as the text that its
    [isoformat()] returns would be: at top level, as the value of a dict
    entry and as an item of a list. *)
Theorem date_converts_as_its_isoformat :
  forall (iso tname : string),
    (forall ids attr_type parent w,
        convert parseString_ok retry_budget (VDate iso tname) ids attr_type parent w
        = convert parseString_ok retry_budget (VStr iso) ids attr_type parent w)
    /\ (forall key rest ids attr_type parent w,
        convert_dict parseString_ok retry_budget (DCons key (VDate iso tname) rest)
          ids parent attr_type w
        = convert_dict parseString_ok retry_budget (DCons key (VStr iso) rest)
            ids parent attr_type w)
    /\ (forall rest this_id i ids attr_type parent w,
        convert_list_loop parseString_ok retry_budget (SCons (VDate iso tname) rest)
          this_id i ids parent attr_type w
        = convert_list_loop parseString_ok retry_budget (SCons (VStr iso) rest)
            this_id i ids parent attr_type w).
Proof. intros iso tname. repeat split. Qed.

(** X15.  A dict is converted entry by entry: the conversion of two dicts put end
    to end is the conversion of the first followed by that of the second. *)
Theorem convert_dict_app :
  forall (a b : Dict) (ids : bool) (parent : string) (attr_type : bool) (w : World),
    convert_dict parseString_ok retry_budget (dict_app a b) ids parent attr_type w
    = (before <- convert_dict parseString_ok retry_budget a ids parent attr_type ;;
       after <- convert_dict parseString_ok retry_budget b ids parent attr_type ;;
       ret (before ++ after)) w.
Proof.
  induction a as [|key val a IH]; intros b ids parent attr_type w.
  - cbn [dict_app convert_dict]. rewrite bind_ret_l. symmetry. exact (bind_ret_r _ w).
  - cbn [dict_app convert_dict].
    rewrite bind_assoc. apply bind_ext. intros attr w1.
    destruct (make_valid_xml_name parseString_ok key attr) as [key' attr'].
    rewrite bind_assoc. apply bind_ext. intros line w2.
    rewrite (bind_cong _ _ _ _ (IH b ids parent attr_type w2)).
    rewrite !bind_assoc. apply bind_ext. intros before w3.
    rewrite bind_ret_l, bind_assoc. apply bind_ext. intros after w4.
    rewrite bind_ret_l. unfold ret. now rewrite append_assoc.
Qed.

(** X17.  Without type attributes, a dict entry whose value is [None] is an element
    with an opening and a closing tag and nothing between them. *)
Theorem none_entry_is_an_empty_element :
  forall (key : string) (rest : Dict) (parent : string) (w : World),
    key_is_valid_xml parseString_ok key = true ->
    convert_dict parseString_ok retry_budget (DCons key VNone rest) false parent false w
    = (out <- convert_dict parseString_ok retry_budget rest false parent false ;;
       ret ("<" ++ key ++ "></" ++ key ++ ">" ++ out)) w.
Proof.
  intros key rest parent w Hk.
  cbn [convert_dict]. unfold dict_entry_attr.
  rewrite bind_ret_l, (make_valid_xml_name_valid _ _ _ Hk).
  cbn [isinstance type_in_str_unicode type_of PyType_eqb has_isoformat orb].
  rewrite (bind_returns _ _ w w ("<" ++ key ++ "></" ++ key ++ ">")).
  - apply bind_ext. intros out w1. unfold ret. now rewrite !append_assoc.
  - unfold with_attr. rewrite convert_none_plain, (make_valid_xml_name_valid _ _ _ Hk).
    reflexivity.
Qed.

End MoreOnEngine.

Lemma none_entry_is_an_empty_element_witness :
  fst (convert_dict name_parser 0 (DCons "a" VNone (DCons "b" (VInt 1) DNil))
         false "root" false (fresh_world (fun _ => 0%Z)))
  = Returns "<a></a><b>1</b>".
Proof.
  rewrite (none_entry_is_an_empty_element name_parser 0 "a" (DCons "b" (VInt 1) DNil)
             "root" (fresh_world (fun _ => 0%Z)) eq_refl).
  reflexivity.
Defined.

(** ** The error for unsupported values *)

Section Unsupported.

Variable parseString_ok : string -> bool.
Variable retry_budget : nat.

(** The rest of a loop after a line that was returned. *)
Lemma loop_tail (c : M string) (line : string) (w : World) (found : option Value) :
  match found with
  | Some x => c w = (Raises (unsupported x), w)
  | None => exists s, c w = (Returns s, w)
  end ->
  match found with
  | Some x => (out <- c ;; ret (line ++ out)) w = (Raises (unsupported x), w)
  | None => exists s, (out <- c ;; ret (line ++ out)) w = (Returns s, w)
  end.
Proof.
  destruct found as [x|]; unfold bind.
  - intros ->. reflexivity.
  - intros [s ->]. eexists. reflexivity.
Qed.

(** A line that a container gives, then the rest of the loop. *)
Lemma loop_container (inner : M string) (wrap : string -> string) (c : M string)
    (w : World) (found_inner found_rest : option Value) :
  match found_inner with
  | Some x => inner w = (Raises (unsupported x), w)
  | None => exists s, inner w = (Returns s, w)
  end ->
  match found_rest with
  | Some x => c w = (Raises (unsupported x), w)
  | None => exists s, c w = (Returns s, w)
  end ->
  match (match found_inner with Some x => Some x | None => found_rest end) with
  | Some x =>
      (line <- (s <- inner ;; ret (wrap s)) ;; out <- c ;; ret (line ++ out)) w
      = (Raises (unsupported x), w)
  | None =>
      exists s,
        (line <- (s <- inner ;; ret (wrap s)) ;; out <- c ;; ret (line ++ out)) w
        = (Returns s, w)
  end.
Proof.
  destruct found_inner as [x|]; unfold bind.
  - intros -> _. reflexivity.
  - intros [s ->]. cbn [ret]. destruct found_rest as [y|].
    + intros ->. reflexivity.
    + intros [t ->]. eexists. reflexivity.
Qed.

Lemma containers_raise_on_first_unsupported :
  (forall v : Value,
      match v with
      | VDict d => forall parent w,
          match first_unsupported_dict d with
          | Some x =>
              convert_dict parseString_ok retry_budget d false parent false w
              = (Raises (unsupported x), w)
          | None =>
              exists s, convert_dict parseString_ok retry_budget d false parent false w
                        = (Returns s, w)
          end
      | VList l => forall this_id i parent w,
          match first_unsupported_seq l with
          | Some x =>
              convert_list_loop parseString_ok retry_budget l this_id i false parent false w
              = (Raises (unsupported x), w)
          | None =>
              exists s, convert_list_loop parseString_ok retry_budget l this_id i
                          false parent false w
                        = (Returns s, w)
          end
      | _ => True
      end)
  /\ (forall (d : Dict) parent w,
      match first_unsupported_dict d with
      | Some x =>
          convert_dict parseString_ok retry_budget d false parent false w
          = (Raises (unsupported x), w)
      | None =>
          exists s, convert_dict parseString_ok retry_budget d false parent false w
                    = (Returns s, w)
      end)
  /\ (forall (l : Seq) this_id i parent w,
      match first_unsupported_seq l with
      | Some x =>
          convert_list_loop parseString_ok retry_budget l this_id i false parent false w
          = (Raises (unsupported x), w)
      | None =>
          exists s, convert_list_loop parseString_ok retry_budget l this_id i
                      false parent false w
                    = (Returns s, w)
      end).
Proof.
  apply Value_Dict_Seq_ind; try (intros; exact I); try (intros ? H; exact H).
  - intros parent w. eexists. reflexivity.
  - intros key val IHval rest IHrest parent w.
    cbn [convert_dict first_unsupported_dict]. unfold dict_entry_attr.
    rewrite bind_ret_l.
    destruct (make_valid_xml_name parseString_ok key []) as [key' attr'].
    specialize (IHrest parent w).
    destruct val;
      cbn [isinstance type_in_str_unicode type_of PyType_eqb has_isoformat orb
           first_unsupported isoformat];
      try (erewrite bind_returns
             by (unfold with_attr;
                 rewrite ?convert_kv_plain, ?convert_none_plain; reflexivity);
           now apply loop_tail).
    + rewrite (bind_cong _ (inner <- convert_dict parseString_ok retry_budget d
                                       false key' false ;;
                            ret ("<" ++ key' ++ make_attrstring attr' ++ ">" ++ inner
                                   ++ "</" ++ key' ++ ">")))
        by reflexivity.
      apply (loop_container _ (fun inner => "<" ++ key' ++ make_attrstring attr' ++ ">"
                                              ++ inner ++ "</" ++ key' ++ ">")).
      * apply IHval.
      * exact IHrest.
    + rewrite (bind_cong _ (inner <- convert_list_loop parseString_ok retry_budget l
                                       "" 0%nat false key' false ;;
                            ret ("<" ++ key' ++ make_attrstring attr' ++ ">" ++ inner
                                   ++ "</" ++ key' ++ ">")))
        by reflexivity.
      apply (loop_container _ (fun inner => "<" ++ key' ++ make_attrstring attr' ++ ">"
                                              ++ inner ++ "</" ++ key' ++ ">")).
      * apply IHval.
      * exact IHrest.
    + reflexivity.
  - intros this_id i parent w. eexists. reflexivity.
  - intros item IHitem rest IHrest this_id i parent w.
    cbn [convert_list_loop first_unsupported_seq].
    specialize (IHrest this_id (S i) parent w).
    destruct item;
      cbn [isinstance type_in_str_unicode type_of PyType_eqb has_isoformat orb
           first_unsupported isoformat negb];
      try (erewrite bind_returns
             by (unfold with_attr;
                 rewrite ?convert_kv_plain, ?convert_none_plain; reflexivity);
           now apply loop_tail).
    + rewrite (bind_cong _ (inner <- convert_dict parseString_ok retry_budget d
                                       false parent false ;;
                            ret inner))
        by (symmetry; apply bind_ret_r).
      apply (loop_container _ (fun inner => inner)).
      * apply IHitem.
      * exact IHrest.
    + rewrite (bind_cong _ (inner <- convert_list_loop parseString_ok retry_budget l
                                       "" 0%nat false "item" false ;;
                            ret inner))
        by (unfold convert_list_with; rewrite bind_ret_l; symmetry; apply bind_ret_r).
      apply (loop_container _ (fun inner => inner)).
      * apply IHitem.
      * exact IHrest.
    + reflexivity.
Qed.

(** X11.  Without ids and without type attributes, a value with no object of an
    unsupported kind in it is always converted; a value with one makes
    [convert] raise the error for unsupported values, and the error carries
    the text and the type name of the first such object in the order of the
    document. *)
Theorem convert_raises_exactly_on_unsupported :
  forall (obj : Value) (parent : string) (w : World),
    match first_unsupported obj with
    | Some x =>
        fst (convert parseString_ok retry_budget obj false false parent w)
        = Raises (unsupported x)
    | None =>
        exists s,
          fst (convert parseString_ok retry_budget obj false false parent w) = Returns s
    end.
Proof.
  intros obj parent w. unfold convert.
  destruct obj;
    cbn [isinstance type_in_str_unicode type_of PyType_eqb has_isoformat orb
         first_unsupported isoformat];
    try (unfold with_default; cbn [fst];
         rewrite ?convert_kv_plain, ?convert_none_plain; eexists; reflexivity).
  - pose proof (proj1 (proj2 containers_raise_on_first_unsupported) d parent w) as H.
    destruct (first_unsupported_dict d) as [x|].
    + now rewrite H.
    + destruct H as [s ->]. now exists s.
  - unfold convert_list, convert_list_with. rewrite bind_ret_l.
    pose proof (proj2 (proj2 containers_raise_on_first_unsupported) l "" 0%nat parent w) as H.
    destruct (first_unsupported_seq l) as [x|].
    + now rewrite H.
    + destruct H as [s ->]. now exists s.
Qed.

End Unsupported.

(** ** With type attributes *)

Section WithTypes.

Variable parseString_ok : string -> bool.
Variable retry_budget : nat.

Lemma convert_dict_typed_entry (key : string) (val : Value) (rest : Dict)
    (ids : bool) (parent : string) (w : World) :
  exists (o : Outcome string) (w' : World),
    convert_dict parseString_ok retry_budget (DCons key val rest) ids parent true w
    = (o, w')
    /\ (forall s, o <> Returns s)
    /\ (ids = false -> exists e, o = Raises e /\ w' = w).
Proof.
  cbn [convert_dict]. unfold bind at 1.
  assert (Hoff : ids = false -> dict_entry_attr retry_budget ids parent w = (Returns [], w)).
  { intros ->. reflexivity. }
  destruct (dict_entry_attr retry_budget ids parent w) as [[attr|e|] w1] eqn:Hattr.
  - destruct (make_valid_xml_name parseString_ok key attr) as [key' attr'].
    assert (Hline : exists e,
               forall k : string -> M string,
                 bind
                   (if isinstance val T_Number || type_in_str_unicode val
                    then with_attr (convert_kv parseString_ok key' val true attr')
                    else if has_isoformat val
                    then with_attr (convert_kv parseString_ok key' (isoformat val) true attr')
                    else if PyType_eqb (type_of val) T_bool
                    then with_attr (convert_bool parseString_ok key' val true attr')
                    else
                      match val with
                      | VDict d =>
                          attr <- container_attr true val attr' ;;
                          inner <- convert_dict parseString_ok retry_budget d ids key' true ;;
                          ret ("<" ++ key' ++ make_attrstring attr ++ ">" ++ inner
                                 ++ "</" ++ key' ++ ">")
                      | VList l =>
                          attr <- container_attr true val attr' ;;
                          inner <- convert_list_with retry_budget
                                     (fun l this_id i =>
                                        convert_list_loop parseString_ok retry_budget
                                          l this_id i ids key' true)
                                     l ids key' ;;
                          ret ("<" ++ key' ++ make_attrstring attr ++ ">" ++ inner
                                 ++ "</" ++ key' ++ ">")
                      | VStr s =>
                          attr <- container_attr true val attr' ;;
                          inner <- convert_list_with retry_budget
                                     (convert_chars parseString_ok ids true) s ids key' ;;
                          ret ("<" ++ key' ++ make_attrstring attr ++ ">" ++ inner
                                 ++ "</" ++ key' ++ ">")
                      | VNone => with_attr (convert_none parseString_ok key' val true attr')
                      | _ => raise (unsupported val)
                      end) k w1
                 = (Raises e, w1)).
    { destruct val;
        cbn [isinstance type_in_str_unicode type_of PyType_eqb has_isoformat orb isoformat];
        eexists; intros k; unfold bind, with_attr, raise;
        rewrite ?convert_kv_typed, ?convert_none_typed, ?container_attr_on; reflexivity. }
    destruct Hline as [e He]. rewrite He.
    exists (Raises e), w1. repeat split; [discriminate|].
    intros Hids. specialize (Hoff Hids). injection Hoff as _ <-. now exists e.
  - exists (Raises e), w1. repeat split; [discriminate|].
    intros Hids. specialize (Hoff Hids). discriminate.
  - exists Spins, w1. repeat split; [discriminate|].
    intros Hids. specialize (Hoff Hids). discriminate.
Qed.

(** X12.  With type attributes (the default of [dicttoxml]) no dict with an entry
    is ever converted, whatever the entry is: the call does not return a
    document, and without ids it raises. *)
Theorem dicttoxml_with_types_rejects_entries :
  forall (key : string) (val : Value) (rest : Dict) (root : bool) (custom_root : string)
         (ids : bool) (w : World),
    (forall bytes,
        fst (dicttoxml parseString_ok retry_budget (VDict (DCons key val rest))
               root custom_root ids true w) <> Returns bytes)
    /\ (exists e,
        fst (dicttoxml parseString_ok retry_budget (VDict (DCons key val rest))
               root custom_root false true w) = Raises e).
Proof.
  intros key val rest root custom_root ids w. unfold dicttoxml, convert.
  cbn [isinstance type_in_str_unicode type_of PyType_eqb has_isoformat orb].
  split.
  - intros bytes. unfold bind.
    destruct root.
    + destruct (convert_dict_typed_entry key val rest ids custom_root w)
        as [o [w' [-> [Ho _]]]].
      destruct o as [s|e|]; cbn [fst]; try discriminate. exfalso. now apply (Ho s).
    + destruct (convert_dict_typed_entry key val rest ids "" w)
        as [o [w' [-> [Ho _]]]].
      destruct o as [s|e|]; cbn [fst]; try discriminate. exfalso. now apply (Ho s).
  - unfold bind. destruct root.
    + destruct (convert_dict_typed_entry key val rest false custom_root w)
        as [o [w' [-> [_ Hr]]]].
      destruct (Hr eq_refl) as [e [-> _]]. now exists e.
    + destruct (convert_dict_typed_entry key val rest false "" w)
        as [o [w' [-> [_ Hr]]]].
      destruct (Hr eq_refl) as [e [-> _]]. now exists e.
Qed.

(** X13.  With type attributes a number, a boolean, a text, a date-like object or
    [None] at top level is not converted: [dicttoxml] raises the [TypeError]
    of the classifier. *)
Theorem dicttoxml_with_types_rejects_leaves :
  forall (obj : Value) (root : bool) (custom_root : string) (ids : bool) (w : World),
    is_leaf obj = true ->
    fst (dicttoxml parseString_ok retry_budget obj root custom_root ids true w)
    = Raises (TypeError "cannot unpack non-iterable type object").
Proof.
  intros obj root custom_root ids w Hleaf. unfold dicttoxml, convert, bind.
  destruct obj; try discriminate;
    cbn [isinstance type_in_str_unicode type_of PyType_eqb has_isoformat orb isoformat];
    destruct root; unfold with_default; cbn beta;
    rewrite ?convert_kv_typed, ?convert_none_typed; reflexivity.
Qed.

End WithTypes.

Lemma dicttoxml_with_types_rejects_leaves_witness :
  fst (dicttoxml name_parser 0 (VStr "abc") true "root" false true
         (fresh_world (fun _ => 0%Z)))
  = Raises (TypeError "cannot unpack non-iterable type object").
Proof.
  apply (dicttoxml_with_types_rejects_leaves name_parser 0 (VStr "abc")). reflexivity.
Defined.

(** ** The root and the fragment *)

Lemma bind_both {A B : Type} (c c' : M A) (k k' : A -> M B) (w : World) :
  c w = c' w -> (forall a w', k a w' = k' a w') -> bind c k w = bind c' k' w.
Proof.
  intros Hc Hk. unfold bind. rewrite Hc. destruct (c' w) as [[a|e|] w']; auto.
Qed.

Lemma encode_utf8_app (a b : string) :
  encode_utf8 (a ++ b) = (encode_utf8 a ++ encode_utf8 b)%list.
Proof.
  induction a as [|c a IH]; cbn [append encode_utf8]; [reflexivity|].
  now rewrite IH, app_assoc.
Qed.

Section RootAndFragment.

Variable parseString_ok : string -> bool.
Variable retry_budget : nat.

(** Without ids the name of the parent plays no part in a conversion. *)
Lemma parent_is_unused_without_ids :
  (forall v : Value,
      match v with
      | VDict d => forall parent1 parent2 attr_type w,
          convert_dict parseString_ok retry_budget d false parent1 attr_type w
          = convert_dict parseString_ok retry_budget d false parent2 attr_type w
      | VList l => forall this_id i parent1 parent2 attr_type w,
          convert_list_loop parseString_ok retry_budget l this_id i false parent1 attr_type w
          = convert_list_loop parseString_ok retry_budget l this_id i
              false parent2 attr_type w
      | _ => True
      end)
  /\ (forall (d : Dict) parent1 parent2 attr_type w,
      convert_dict parseString_ok retry_budget d false parent1 attr_type w
      = convert_dict parseString_ok retry_budget d false parent2 attr_type w)
  /\ (forall (l : Seq) this_id i parent1 parent2 attr_type w,
      convert_list_loop parseString_ok retry_budget l this_id i false parent1 attr_type w
      = convert_list_loop parseString_ok retry_budget l this_id i false parent2 attr_type w).
Proof.
  apply Value_Dict_Seq_ind; try (intros; exact I); try (intros ? H; exact H).
  - reflexivity.
  - intros key val IHval rest IHrest parent1 parent2 attr_type w.
    cbn [convert_dict]. unfold dict_entry_attr. rewrite !bind_ret_l.
    destruct (make_valid_xml_name parseString_ok key []) as [key' attr'].
    apply bind_ext. intros line w1. apply bind_cong, IHrest.
  - reflexivity.
  - intros item IHitem rest IHrest this_id i parent1 parent2 attr_type w.
    cbn [convert_list_loop]. apply bind_both.
    + destruct item; try reflexivity.
      cbn [isinstance type_in_str_unicode type_of PyType_eqb has_isoformat orb].
      destruct attr_type; cbn [negb]; [apply bind_cong|]; apply IHitem.
    + intros line w1. apply bind_cong, IHrest.
Qed.

Lemma convert_parent_is_unused (obj : Value) (attr_type : bool) (parent1 parent2 : string)
    (w : World) :
  convert parseString_ok retry_budget obj false attr_type parent1 w
  = convert parseString_ok retry_budget obj false attr_type parent2 w.
Proof.
  unfold convert. destruct obj; try reflexivity;
    cbn [isinstance type_in_str_unicode type_of PyType_eqb has_isoformat orb].
  - apply parent_is_unused_without_ids.
  - unfold convert_list, convert_list_with. rewrite !bind_ret_l.
    apply parent_is_unused_without_ids.
Qed.

(** X14.  Without ids, the document with a root is the fragment put between the
    declaration with the opening tag of the root and its closing tag; both
    calls raise alike and leave the same world. *)
Theorem dicttoxml_root_wraps_fragment :
  forall (obj : Value) (custom_root : string) (attr_type : bool) (w : World),
    dicttoxml parseString_ok retry_budget obj true custom_root false attr_type w
    = match dicttoxml parseString_ok retry_budget obj false custom_root false attr_type w
      with
      | (Returns fragment, w') =>
          (Returns (encode_utf8 (xml_declaration ++ "<" ++ custom_root ++ ">")
                      ++ fragment ++ encode_utf8 ("</" ++ custom_root ++ ">"))%list, w')
      | (Raises e, w') => (Raises e, w')
      | (Spins, w') => (Spins, w')
      end.
Proof.
  intros obj custom_root attr_type w. unfold dicttoxml, bind.
  rewrite (convert_parent_is_unused obj attr_type custom_root "" w).
  destruct (convert parseString_ok retry_budget obj false attr_type "" w)
    as [[body|e|] w']; try reflexivity.
  unfold ret. rewrite !encode_utf8_app, <- ?app_assoc. reflexivity.
Qed.

Lemma get_unique_id_first_new (element : string) (w : World) :
  ~ In (candidate element w 0) (ids w) ->
  get_unique_id retry_budget element w
  = (Returns (candidate element w 0),
     set_ids (ids w ++ [candidate element w 0])%list (set_drawn (S (drawn w)) w)).
Proof.
  intros Hnew. unfold get_unique_id, bind. rewrite make_id_candidate.
  rewrite (get_unique_id_loop_first_new 0 retry_budget element (candidate element w 0)
             (set_drawn (S (drawn w)) w)).
  - unfold ids_last. cbn [ids set_ids set_drawn tried]. rewrite rev_app_distr.
    cbn [rev app]. same_world w.
  - lia.
  - intros j Hj. lia.
  - exact Hnew.
Qed.

Lemma loop_of_leaves (l : Seq) :
  forall (this_id : string) (i : nat) (parent : string) (w : World),
    all_leaves l = true ->
    exists s,
      convert_list_loop parseString_ok retry_budget l this_id i true parent false w
      = (Returns s, w).
Proof.
  induction l as [|item rest IH]; intros this_id i parent w Hl.
  - eexists. reflexivity.
  - cbn [all_leaves] in Hl. apply andb_true_iff in Hl as [Hitem Hrest].
    destruct (IH this_id (S i) parent w Hrest) as [out Hout].
    cbn [convert_list_loop].
    destruct item; try discriminate;
      cbn [isinstance type_in_str_unicode type_of PyType_eqb has_isoformat orb isoformat];
      (erewrite bind_returns
         by (unfold with_attr; rewrite ?convert_kv_plain, ?convert_none_plain; reflexivity));
      rewrite (bind_returns _ _ _ _ _ Hout); eexists; reflexivity.
Qed.

(** X16.  With ids, a list of values with no nesting is given one identifier by the
    allocator, whatever its length (none for an item: the ids of the items
    are made from that of the list), and an empty list is given one too. *)
Theorem list_of_leaves_takes_one_identifier :
  forall (l : Seq) (parent : string) (w : World),
    all_leaves l = true ->
    ~ In (candidate parent w 0) (ids w) ->
    exists s,
      convert_list parseString_ok retry_budget l true parent false w
      = (Returns s,
         set_ids (ids w ++ [candidate parent w 0])%list (set_drawn (S (drawn w)) w)).
Proof.
  intros l parent w Hl Hnew. unfold convert_list, convert_list_with.
  rewrite (bind_returns _ _ _ _ _ (get_unique_id_first_new parent w Hnew)).
  apply loop_of_leaves, Hl.
Qed.

End RootAndFragment.

Lemma list_of_leaves_takes_one_identifier_witness :
  exists s,
    convert_list name_parser 0 (seq_of [VInt 1; VStr "x"; VNone]) true "root" false
      (fresh_world (fun _ => 0%Z))
    = (Returns s, set_ids ["root_100000"] (set_drawn 1 (fresh_world (fun _ => 0%Z)))).
Proof.
  apply (list_of_leaves_takes_one_identifier name_parser 0
           (seq_of [VInt 1; VStr "x"; VNone]) "root" (fresh_world (fun _ => 0%Z))).
  - reflexivity.
  - intros [].
Defined.

(** ** The empty dict *)

(** An empty dict is converted whatever the flags are, type attributes
    included: to the declaration and an empty root, or, as a fragment, to no
    bytes at all; the world is left as it was. *)
Theorem dicttoxml_of_empty_dict :
  forall (parseString_ok : string -> bool) (retry_budget : nat)
         (custom_root : string) (ids attr_type : bool) (w : World),
    dicttoxml parseString_ok retry_budget (VDict DNil) true custom_root ids attr_type w
    = (Returns (encode_utf8 (xml_declaration ++ "<" ++ custom_root ++ "></"
                               ++ custom_root ++ ">")), w)
    /\ dicttoxml parseString_ok retry_budget (VDict DNil) false custom_root ids attr_type w
       = (Returns [], w).
Proof. intros p n custom_root ids attr_type w. split; reflexivity. Qed.

(** ** Containers inside a list, with type attributes *)

Section TypedNestedContainers.

Variable parseString_ok : string -> bool.
Variable retry_budget : nat.

Lemma typed_dict_item_line (d : Dict) (rest : Seq) (this_id : string) (i : nat)
    (ids : bool) (parent : string) (w : World) :
  convert_list_loop parseString_ok retry_budget (SCons (VDict d) rest)
    this_id i ids parent true w
  = (line <- (inner <- convert_dict parseString_ok retry_budget d ids parent true ;;
              ret ("<item type=" ++ dquote ++ "dict" ++ dquote ++ ">"
                     ++ inner ++ "</item>")) ;;
     out <- convert_list_loop parseString_ok retry_budget rest
              this_id (S i) ids parent true ;;
     ret (line ++ out)) w.
Proof. reflexivity. Qed.

(** C4 (the code departs from the claim).  The claim: with type attributes a
    dict that is an item of a list is rendered wrapped in
    [<item type="dict">].  The code: a dict with an entry, at any place of a
    list, makes the loop of the list raise (or never end, in the allocator):
    its first entry reaches the classifier, so the list returns nothing and no
    wrapper is written.  For the list [[{"a": 1}]] without ids the call raises
    the [TypeError] of the classifier and leaves the world as it was. *)
Theorem convert_list_typed_nested_dict_raises :
  (forall (pre post : Seq) (key : string) (val : Value) (rest : Dict)
          (this_id : string) (i : nat) (ids : bool) (parent : string) (w : World)
          (s : string),
      fst (convert_list_loop parseString_ok retry_budget
             (seq_app pre (SCons (VDict (DCons key val rest)) post))
             this_id i ids parent true w)
      <> Returns s)
  /\ (forall (parent : string) (w : World),
      convert_list parseString_ok retry_budget
        (SCons (VDict (DCons "a" (VInt 1) DNil)) SNil) false parent true w
      = (Raises (TypeError "cannot unpack non-iterable type object"), w)).
Proof.
  split.
  - intros pre post key val rest this_id i ids parent w s.
    rewrite convert_list_loop_app. unfold bind at 1.
    destruct (convert_list_loop parseString_ok retry_budget pre this_id i ids parent true w)
      as [[before|e|] w1]; cbn [fst]; try discriminate.
    destruct (convert_dict_typed_entry parseString_ok retry_budget key val rest ids parent w1)
      as [o [w2 [E [Ho _]]]].
    cbn beta. erewrite bind_cong by apply typed_dict_item_line.
    unfold bind. rewrite E.
    destruct o as [inner|e|]; cbn [fst]; try discriminate.
    exfalso. now apply (Ho inner).
  - intros parent w. unfold convert_list, convert_list_with. rewrite bind_ret_l.
    cbn [convert_list_loop convert_dict].
    cbn [isinstance type_in_str_unicode type_of PyType_eqb has_isoformat orb negb].
    unfold dict_entry_attr, bind, ret, with_attr.
    destruct (make_valid_xml_name parseString_ok "a" []) as [key' attr'].
    cbn [isinstance type_in_str_unicode type_of PyType_eqb has_isoformat orb negb].
    now rewrite convert_kv_typed.
Qed.

End TypedNestedContainers.

(** Without type attributes the same list is converted, and the entry of its
    dict stands in the output with no wrapper. *)
Example nested_dict_without_types_is_spliced :
  fst (convert_list name_parser 0 (SCons (VDict (DCons "a" (VInt 1) DNil)) SNil)
         false "root" false (fresh_world (fun _ => 0%Z)))
  = Returns "<a>1</a>".
Proof. reflexivity. Qed.

(** ** Texts that are not one leaf *)

(** The witness of C10: a text with a character to escape, as the only item of
    a list. *)
Lemma exact_str_is_one_leaf_witness :
  convert_list_loop name_parser 0 (SCons (VStr "a<b") SNil) "" 0 false "root" false
    (fresh_world (fun _ => 0%Z))
  = (Returns "<item>a&lt;b</item>", fresh_world (fun _ => 0%Z)).
Proof.
  rewrite (proj2 (proj2 (proj2 (proj2 (proj2 (exact_str_is_one_leaf name_parser 0 "a<b")))))
             SNil "" 0%nat false "root" (fresh_world (fun _ => 0%Z)) ""
             (fresh_world (fun _ => 0%Z)) eq_refl).
  reflexivity.
Defined.

(** C10 as it was stated does not hold.  With type attributes, the default,
    the text [ab] at top level is not rendered: [dicttoxml] raises.  And an
    instance of a subclass of [str] holding [ab] fails the test on the class
    and is converted character by character. *)
Lemma text_is_not_always_one_leaf :
  fst (dicttoxml name_parser 0 (VStr "ab") true "root" false true
         (fresh_world (fun _ => 0%Z)))
  = Raises (TypeError "cannot unpack non-iterable type object")
  /\ fst (convert name_parser 0 (str_subclass_instance "ab") false false "root"
            (fresh_world (fun _ => 0%Z)))
     = Returns "<item>a</item><item>b</item>".
Proof. split; reflexivity. Qed.
